(** * Deep Research Agent: data contracts and relational schema

    A shallow embedding of the shared type catalogue
    ([packages/shared/typescript/src/{research,events,api}.ts]), of the
    package README that documents the backend validation rules, and of the
    PostgreSQL schema ([infra/supabase/migrations/001_initial_schema.sql],
    [002_add_indexes.sql], [infra/supabase/types.sql]) with its seed
    script.

    String-literal unions become enumerations with their literal, the
    values that arrive from the wire become records, and a TypeScript type
    becomes the set of the JavaScript values that have it ([ts]).  SQL
    rows become records of nullable columns, a constraint becomes a
    function into SQL's three-valued logic, and a statement a function on
    the database that can fail.  The file first gives every definition,
    then the theorems. *)

From Stdlib Require Import List String Ascii Bool ZArith NArith QArith Lia.
Import ListNotations.

Local Open Scope string_scope.
Local Open Scope Z_scope.
Local Open Scope list_scope.

(* ===================================================================== *)
(** * JSON values *)
(* ===================================================================== *)

(** The numbers of JSON.  A finite IEEE double is a rational number and
    doubles are compared as the rationals they denote, so a number that
    travels on the wire is modelled by [Q]; JSON has no NaN, no infinity
    and no -0.  The records of [research] and [api] below hold such
    numbers: they are the values that arrive from the wire.  A TypeScript
    [number] in memory is [ts.number], which has NaN, the infinities and
    -0 as well. *)
Definition number := Q.

#[local] Unset Elimination Schemes.
Inductive json : Type :=
| JNull
| JBool (b : bool)
| JNumber (n : number)
| JString (s : string)
| JArray (items : list json)
| JObject (members : list (string * json)).
#[local] Set Elimination Schemes.

(** [Record<string, unknown>] *)
Definition Record_string_unknown := list (string * json).

(** Property lookup [o[k]].  A name that is written more than once has
    its last value, as JSON.parse and jsonb have it. *)
Fixpoint get (k : string) (members : list (string * json)) : option json :=
  match members with
  | [] => None
  | (k', v) :: rest =>
      match get k rest with
      | Some later => Some later
      | None => if String.eqb k k' then Some v else None
      end
  end.

Definition keys (members : list (string * json)) : list string :=
  map fst members.

(* ===================================================================== *)
(** * PostgreSQL values and three-valued logic *)
(* ===================================================================== *)

Module Sql.

(** The truth values of an SQL condition. *)
Inductive bool3 := TRUE | FALSE | UNKNOWN.

Definition of_bool (b : bool) : bool3 := if b then TRUE else FALSE.

Definition and3 (a b : bool3) : bool3 :=
  match a, b with
  | FALSE, _ | _, FALSE => FALSE
  | TRUE, TRUE => TRUE
  | _, _ => UNKNOWN
  end.

Definition or3 (a b : bool3) : bool3 :=
  match a, b with
  | TRUE, _ | _, TRUE => TRUE
  | FALSE, FALSE => FALSE
  | _, _ => UNKNOWN
  end.

(** A column value: [None] is NULL. *)
Definition nullable (A : Type) := option A.

(** [x IS NULL] is never unknown. *)
Definition is_null {A} (x : nullable A) : bool3 :=
  match x with None => TRUE | Some _ => FALSE end.

(** A comparison with a NULL operand is unknown. *)
Definition lift2 {A} (op : A -> A -> bool) (x y : nullable A) : bool3 :=
  match x, y with
  | Some a, Some b => of_bool (op a b)
  | _, _ => UNKNOWN
  end.

(** A CHECK constraint is violated only when its condition is FALSE. *)
Definition check (c : bool3) : bool :=
  match c with FALSE => false | _ => true end.

(** NOT NULL *)
Definition not_null {A} (x : nullable A) : bool :=
  match x with None => false | Some _ => true end.

(** UUID: a 128-bit quantity. *)
Definition uuid := N.

(** TIMESTAMPTZ: microseconds since the epoch. *)
Definition timestamptz := Z.

(** JSONB *)
Definition jsonb := json.

(** INT: a signed 32-bit integer. *)
Definition int4_min : Z := - 2 ^ 31.
Definition int4_max : Z := 2 ^ 31 - 1.
Definition is_int4 (x : nullable Z) : bool :=
  match x with
  | None => true
  | Some z => (int4_min <=? z) && (z <=? int4_max)
  end.

Definition int_ge : nullable Z -> nullable Z -> bool3 := lift2 Z.geb.

(** FLOAT (float8).  Finite doubles are the rationals they denote;
    PostgreSQL orders the special values
    [-Infinity < finite < Infinity < NaN] and has [NaN = NaN]. *)
Inductive float8 :=
| Finite (q : Q)
| Infinity
| NegInfinity
| NaN.

Definition float8_cmp (a b : float8) : comparison :=
  match a, b with
  | NaN, NaN => Eq
  | NaN, _ => Gt
  | _, NaN => Lt
  | Infinity, Infinity => Eq
  | Infinity, _ => Gt
  | _, Infinity => Lt
  | NegInfinity, NegInfinity => Eq
  | NegInfinity, _ => Lt
  | _, NegInfinity => Gt
  | Finite p, Finite q => Qcompare p q
  end.

Definition float8_geb (a b : float8) : bool :=
  match float8_cmp a b with Lt => false | _ => true end.

Definition float8_leb (a b : float8) : bool :=
  match float8_cmp a b with Gt => false | _ => true end.

Definition float_ge : nullable float8 -> nullable float8 -> bool3 :=
  lift2 float8_geb.
Definition float_le : nullable float8 -> nullable float8 -> bool3 :=
  lift2 float8_leb.

(** [x IN (l1, ..., ln)] is [x = l1 OR ... OR x = ln]. *)
Definition text_eq : nullable string -> nullable string -> bool3 :=
  lift2 String.eqb.

Fixpoint text_in (x : nullable string) (lits : list string) : bool3 :=
  match lits with
  | [] => FALSE
  | l :: rest => or3 (text_eq x (Some l)) (text_in x rest)
  end.

(** A column DEFAULT applies when the INSERT does not name the column;
    a named column takes the supplied value, NULL included. *)
Definition column {A} (supplied : option (nullable A)) (default : nullable A)
  : nullable A :=
  match supplied with
  | None => default
  | Some v => v
  end.

(** Referential actions of a foreign key. *)
Inductive referential_action := NO_ACTION | CASCADE.

(** The input function of an enum type: a label is accepted as written,
    anything else is an error.  The value is the label's position. *)
Fixpoint enum_in (labels : list string) (s : string) : option nat :=
  match labels with
  | [] => None
  | l :: rest =>
      if String.eqb s l then Some O
      else option_map S (enum_in rest s)
  end.

End Sql.

(* ===================================================================== *)
(** * The relational schema: 001_initial_schema.sql *)
(* ===================================================================== *)

(** One module per table.  [row] has one nullable field per column;
    [accepts] is the conjunction of the row-level constraints of the table:
    the NOT NULL columns (PRIMARY KEY implies NOT NULL), the column types
    and the CHECK constraints added by ALTER TABLE. *)

Module research_tasks.
Import Sql.

Record row := {
  id : nullable uuid;
  query : nullable string;
  config : nullable jsonb;
  status : nullable string;
  result : nullable jsonb;
  reasoning_trace : nullable jsonb;
  error : nullable string;
  created_at : nullable timestamptz;
  started_at : nullable timestamptz;
  completed_at : nullable timestamptz;
  metadata : nullable jsonb
}.

(** CHECK (status IN ('pending', 'running', 'completed', 'failed')) *)
Definition chk_task_status (r : row) : bool3 :=
  text_in (status r) ["pending"; "running"; "completed"; "failed"].

Definition accepts (r : row) : bool :=
  not_null (id r) && not_null (query r) && not_null (status r)
  && check (chk_task_status r).

(** The values an INSERT stores: a column that the statement does not
    name takes its DEFAULT ([None] where the table declares none).
    [gen_random_uuid] and [now] are the values of
    [gen_random_uuid()] and [NOW()] at the time of the statement. *)
Definition insert_values (gen_random_uuid : uuid) (now : timestamptz)
    (id_ : option (nullable uuid)) (query_ : option (nullable string))
    (config_ : option (nullable jsonb)) (status_ : option (nullable string))
    (result_ reasoning_trace_ : option (nullable jsonb))
    (error_ : option (nullable string))
    (created_at_ started_at_ completed_at_ : option (nullable timestamptz))
    (metadata_ : option (nullable jsonb)) : row :=
  {| id := column id_ (Some gen_random_uuid);
     query := column query_ None;
     config := column config_ (Some (JObject []));
     status := column status_ (Some "pending");
     result := column result_ None;
     reasoning_trace := column reasoning_trace_ None;
     error := column error_ None;
     created_at := column created_at_ (Some now);
     started_at := column started_at_ None;
     completed_at := column completed_at_ None;
     metadata := column metadata_ (Some (JObject [])) |}.
End research_tasks.

Module research_findings.
Import Sql.

Record row := {
  id : nullable uuid;
  task_id : nullable uuid;
  sub_query : nullable string;
  response : nullable string;
  citations : nullable jsonb;
  confidence : nullable float8;
  created_at : nullable timestamptz
}.

(** REFERENCES research_tasks(id) ON DELETE CASCADE *)
Definition task_id_on_delete : referential_action := CASCADE.

(** CHECK (confidence IS NULL OR
           (confidence >= 0.0 AND confidence <= 1.0)) *)
Definition chk_confidence_range (r : row) : bool3 :=
  or3 (is_null (confidence r))
      (and3 (float_ge (confidence r) (Some (Finite 0)))
            (float_le (confidence r) (Some (Finite 1)))).

Definition accepts (r : row) : bool :=
  not_null (id r) && not_null (task_id r) && not_null (sub_query r)
  && not_null (response r) && check (chk_confidence_range r).
End research_findings.

Module inferences.
Import Sql.

Record row := {
  id : nullable uuid;
  task_id : nullable uuid;
  claim : nullable string;
  supporting_citations : nullable jsonb;
  degrees_of_separation : nullable Z;
  reasoning : nullable string;
  created_at : nullable timestamptz
}.

(** REFERENCES research_tasks(id) ON DELETE CASCADE *)
Definition task_id_on_delete : referential_action := CASCADE.

(** CHECK (degrees_of_separation >= 0) *)
Definition chk_degrees_non_negative (r : row) : bool3 :=
  int_ge (degrees_of_separation r) (Some 0).

Definition accepts (r : row) : bool :=
  not_null (id r) && not_null (task_id r) && not_null (claim r)
  && not_null (degrees_of_separation r) && is_int4 (degrees_of_separation r)
  && not_null (reasoning r) && check (chk_degrees_non_negative r).
End inferences.

Module eval_results.
Import Sql.

Record row := {
  id : nullable uuid;
  task_id : nullable uuid;
  eval_type : nullable string;
  score : nullable float8;
  details : nullable jsonb;
  created_at : nullable timestamptz
}.

(** REFERENCES research_tasks(id) ON DELETE CASCADE *)
Definition task_id_on_delete : referential_action := CASCADE.

(** CHECK (score IS NULL OR (score >= 0.0 AND score <= 1.0)) *)
Definition chk_score_range (r : row) : bool3 :=
  or3 (is_null (score r))
      (and3 (float_ge (score r) (Some (Finite 0)))
            (float_le (score r) (Some (Finite 1)))).

Definition accepts (r : row) : bool :=
  not_null (id r) && not_null (task_id r) && not_null (eval_type r)
  && check (chk_score_range r).
End eval_results.

(** ** The database: the four tables and the statements that change them *)

Module Db.
Import Sql.

Record database := {
  research_tasks : list research_tasks.row;
  research_findings : list research_findings.row;
  inferences : list inferences.row;
  eval_results : list eval_results.row
}.

Definition empty : database :=
  {| research_tasks := []; research_findings := []; inferences := [];
     eval_results := [] |}.

(** Does the key column [col] of a row hold [key]?  NULL matches nothing. *)
Definition holds (col : nullable uuid) (key : uuid) : bool :=
  match col with
  | Some k => N.eqb k key
  | None => false
  end.

Definition key_free {R} (col : R -> nullable uuid) (k : nullable uuid)
    (rows : list R) : bool :=
  match k with
  | Some key => negb (existsb (fun r => holds (col r) key) rows)
  | None => true
  end.

Definition key_present {R} (col : R -> nullable uuid) (k : nullable uuid)
    (rows : list R) : bool :=
  match k with
  | Some key => existsb (fun r => holds (col r) key) rows
  | None => true
  end.

(** INSERT INTO research_tasks: the row constraints and the uniqueness of
    the primary key. *)
Definition insert_task (r : research_tasks.row) (db : database)
  : option database :=
  if research_tasks.accepts r
     && key_free research_tasks.id (research_tasks.id r) (research_tasks db)
  then Some {| research_tasks := research_tasks db ++ [r];
               research_findings := research_findings db;
               inferences := inferences db;
               eval_results := eval_results db |}
  else None.

(** INSERT into a referencing table: the row constraints, the uniqueness
    of the primary key and the existence of the referenced task.  This is
    the table as migration 001 creates it; the btree indexes that
    migration 002 adds refuse a row whose indexed values are too large,
    which [indexes.insert_eval] takes into account for [eval_results]. *)
Definition insert_finding (r : research_findings.row) (db : database)
  : option database :=
  if research_findings.accepts r
     && key_free research_findings.id (research_findings.id r)
                 (research_findings db)
     && key_present research_tasks.id (research_findings.task_id r)
                    (research_tasks db)
  then Some {| research_tasks := research_tasks db;
               research_findings := research_findings db ++ [r];
               inferences := inferences db;
               eval_results := eval_results db |}
  else None.

Definition insert_inference (r : inferences.row) (db : database)
  : option database :=
  if inferences.accepts r
     && key_free inferences.id (inferences.id r) (inferences db)
     && key_present research_tasks.id (inferences.task_id r)
                    (research_tasks db)
  then Some {| research_tasks := research_tasks db;
               research_findings := research_findings db;
               inferences := inferences db ++ [r];
               eval_results := eval_results db |}
  else None.

Definition insert_eval (r : eval_results.row) (db : database)
  : option database :=
  if eval_results.accepts r
     && key_free eval_results.id (eval_results.id r) (eval_results db)
     && key_present research_tasks.id (eval_results.task_id r)
                    (research_tasks db)
  then Some {| research_tasks := research_tasks db;
               research_findings := research_findings db;
               inferences := inferences db;
               eval_results := eval_results db ++ [r] |}
  else None.

(** The rows whose key column [col] does not hold [key], in table order,
    and those whose key column does. *)
Definition others {R} (col : R -> nullable uuid) (key : uuid)
    (rows : list R) : list R :=
  filter (fun r => negb (holds (col r) key)) rows.

Definition referencing {R} (col : R -> nullable uuid) (key : uuid)
    (rows : list R) : list R :=
  filter (fun r => holds (col r) key) rows.

(** What a foreign key does to the referencing table when the row with
    key [key] is deleted from the referenced table: NO ACTION raises an
    error if a referencing row is left, CASCADE deletes the referencing
    rows. *)
Definition on_delete {R} (action : referential_action)
    (fk : R -> nullable uuid) (key : uuid) (rows : list R)
  : option (list R) :=
  match action with
  | NO_ACTION =>
      if existsb (fun r => holds (fk r) key) rows then None else Some rows
  | CASCADE => Some (others fk key rows)
  end.

(** DELETE FROM research_tasks WHERE id = key *)
Definition delete_task (key : uuid) (db : database) : option database :=
  match on_delete research_findings.task_id_on_delete
                  research_findings.task_id key (research_findings db),
        on_delete inferences.task_id_on_delete
                  inferences.task_id key (inferences db),
        on_delete eval_results.task_id_on_delete
                  eval_results.task_id key (eval_results db) with
  | Some fs, Some is_, Some es =>
      Some {| research_tasks :=
                others research_tasks.id key (research_tasks db);
              research_findings := fs; inferences := is_; eval_results := es |}
  | _, _, _ => None
  end.
End Db.

(* ===================================================================== *)
(** * Custom types: types.sql *)
(* ===================================================================== *)

Module types_sql.
(** CREATE TYPE task_status AS ENUM
      ('pending', 'running', 'completed', 'failed') *)
Definition task_status : list string :=
  ["pending"; "running"; "completed"; "failed"].

Definition task_status_in (s : string) : option nat :=
  Sql.enum_in task_status s.
End types_sql.

(* ===================================================================== *)
(** * Research types: research.ts *)
(* ===================================================================== *)

Module research.

(** type TaskStatus = "pending" | "running" | "completed" | "failed" *)
Inductive TaskStatus := pending | running | completed | failed.

Definition TaskStatus_literal (s : TaskStatus) : string :=
  match s with
  | pending => "pending"
  | running => "running"
  | completed => "completed"
  | failed => "failed"
  end.

Definition TaskStatus_members : list TaskStatus :=
  [pending; running; completed; failed].

Definition TaskStatus_literals : list string :=
  map TaskStatus_literal TaskStatus_members.

(** A string has type [TaskStatus] when it is one of the literals of the
    union. *)
Fixpoint literal_in {A} (literal : A -> string) (members : list A)
    (s : string) : option A :=
  match members with
  | [] => None
  | m :: rest =>
      if String.eqb s (literal m) then Some m else literal_in literal rest s
  end.

Definition TaskStatus_of_string : string -> option TaskStatus :=
  literal_in TaskStatus_literal TaskStatus_members.

Record Citation := {
  title : string;
  url : string;
  snippet : string
}.

Record Inference := {
  claim : string;
  supporting_citations : list string;
  degrees_of_separation : number;
  reasoning : string
}.

Record ReasoningStep := {
  step_number : number;
  action : string;
  input : string;
  output : string;
  rationale : string
}.

Record ResearchResult := {
  summary : string;
  key_findings : list string;
  inferences : list Inference;
  reasoning_trace : list ReasoningStep;
  citations : list Citation;
  confidence_score : number
}.

(** [T | null] is [option T]. *)
Record ResearchTask := {
  id : string;
  query : string;
  status : TaskStatus;
  result : option ResearchResult;
  error_message : option string;
  created_at : string;
  started_at : option string;
  completed_at : option string
}.

End research.

(* ===================================================================== *)
(** * Interface values as JSON objects *)
(* ===================================================================== *)

(** An interface describes objects: a value of the interface is the object
    that has one property per declared member.  [to_json] builds that
    object, [of_json] reads a value back from an object, member by member,
    and fails when a member is missing or has another type. *)

Module Json.
Import research.

Definition nullable {A} (enc : A -> json) (x : option A) : json :=
  match x with
  | None => JNull
  | Some a => enc a
  end.

Definition array {A} (enc : A -> json) (l : list A) : json :=
  JArray (map enc l).

Definition of_Citation (c : Citation) : json :=
  JObject [("title", JString (title c));
           ("url", JString (url c));
           ("snippet", JString (snippet c))].

Definition of_Inference (i : Inference) : json :=
  JObject [("claim", JString (claim i));
           ("supporting_citations", array JString (supporting_citations i));
           ("degrees_of_separation", JNumber (degrees_of_separation i));
           ("reasoning", JString (reasoning i))].

Definition of_ReasoningStep (s : ReasoningStep) : json :=
  JObject [("step_number", JNumber (step_number s));
           ("action", JString (action s));
           ("input", JString (input s));
           ("output", JString (output s));
           ("rationale", JString (rationale s))].

Definition of_ResearchResult (r : ResearchResult) : json :=
  JObject [("summary", JString (summary r));
           ("key_findings", array JString (key_findings r));
           ("inferences", array of_Inference (inferences r));
           ("reasoning_trace", array of_ReasoningStep (reasoning_trace r));
           ("citations", array of_Citation (citations r));
           ("confidence_score", JNumber (confidence_score r))].

Definition of_ResearchTask (t : ResearchTask) : json :=
  JObject [("id", JString (id t));
           ("query", JString (query t));
           ("status", JString (TaskStatus_literal (status t)));
           ("result", nullable of_ResearchResult (result t));
           ("error_message", nullable JString (error_message t));
           ("created_at", JString (created_at t));
           ("started_at", nullable JString (started_at t));
           ("completed_at", nullable JString (completed_at t))].

(** Reading back. *)

Definition bind {A B} (x : option A) (k : A -> option B) : option B :=
  match x with
  | Some a => k a
  | None => None
  end.

Notation "x <- c ;; k" := (bind c (fun x => k))
  (at level 61, c at next level, right associativity).

Definition as_string (j : json) : option string :=
  match j with JString s => Some s | _ => None end.

Definition as_number (j : json) : option number :=
  match j with JNumber n => Some n | _ => None end.

Definition as_object (j : json) : option (list (string * json)) :=
  match j with JObject m => Some m | _ => None end.

Fixpoint each {A} (dec : json -> option A) (items : list json)
  : option (list A) :=
  match items with
  | [] => Some []
  | j :: rest =>
      a <- dec j ;;
      l <- each dec rest ;;
      Some (a :: l)
  end.

Definition as_array {A} (dec : json -> option A) (j : json)
  : option (list A) :=
  match j with JArray items => each dec items | _ => None end.

Definition as_nullable {A} (dec : json -> option A) (j : json)
  : option (option A) :=
  match j with
  | JNull => Some None
  | _ => a <- dec j ;; Some (Some a)
  end.

Definition as_TaskStatus (j : json) : option TaskStatus :=
  s <- as_string j ;; TaskStatus_of_string s.

(** The member [k] of an object, read with [dec]. *)
Definition member {A} (k : string) (dec : json -> option A)
    (m : list (string * json)) : option A :=
  j <- get k m ;; dec j.

Definition to_Citation (j : json) : option Citation :=
  m <- as_object j ;;
  title_ <- member "title" as_string m ;;
  url_ <- member "url" as_string m ;;
  snippet_ <- member "snippet" as_string m ;;
  Some {| title := title_; url := url_; snippet := snippet_ |}.

Definition to_Inference (j : json) : option Inference :=
  m <- as_object j ;;
  claim_ <- member "claim" as_string m ;;
  cites <- member "supporting_citations" (as_array as_string) m ;;
  degrees <- member "degrees_of_separation" as_number m ;;
  reasoning_ <- member "reasoning" as_string m ;;
  Some {| claim := claim_; supporting_citations := cites;
          degrees_of_separation := degrees; reasoning := reasoning_ |}.

Definition to_ReasoningStep (j : json) : option ReasoningStep :=
  m <- as_object j ;;
  n <- member "step_number" as_number m ;;
  action_ <- member "action" as_string m ;;
  input_ <- member "input" as_string m ;;
  output_ <- member "output" as_string m ;;
  rationale_ <- member "rationale" as_string m ;;
  Some {| step_number := n; action := action_; input := input_;
          output := output_; rationale := rationale_ |}.

Definition to_ResearchResult (j : json) : option ResearchResult :=
  m <- as_object j ;;
  summary_ <- member "summary" as_string m ;;
  findings <- member "key_findings" (as_array as_string) m ;;
  infs <- member "inferences" (as_array to_Inference) m ;;
  trace <- member "reasoning_trace" (as_array to_ReasoningStep) m ;;
  cites <- member "citations" (as_array to_Citation) m ;;
  score <- member "confidence_score" as_number m ;;
  Some {| summary := summary_; key_findings := findings; inferences := infs;
          reasoning_trace := trace; citations := cites;
          confidence_score := score |}.

Definition to_ResearchTask (j : json) : option ResearchTask :=
  m <- as_object j ;;
  id_ <- member "id" as_string m ;;
  query_ <- member "query" as_string m ;;
  status_ <- member "status" as_TaskStatus m ;;
  result_ <- member "result" (as_nullable to_ResearchResult) m ;;
  error_ <- member "error_message" (as_nullable as_string) m ;;
  created <- member "created_at" as_string m ;;
  started <- member "started_at" (as_nullable as_string) m ;;
  done <- member "completed_at" (as_nullable as_string) m ;;
  Some {| id := id_; query := query_; status := status_; result := result_;
          error_message := error_; created_at := created;
          started_at := started; completed_at := done |}.

End Json.

(* ===================================================================== *)
(** * Event types: events.ts *)
(* ===================================================================== *)

Module events.
Import research.

(** type EventType = "task_created" | "task_started" | "step_completed"
                   | "task_completed" | "task_failed" *)
Inductive EventType :=
| task_created
| task_started
| step_completed
| task_completed
| task_failed.

Definition EventType_literal (t : EventType) : string :=
  match t with
  | task_created => "task_created"
  | task_started => "task_started"
  | step_completed => "step_completed"
  | task_completed => "task_completed"
  | task_failed => "task_failed"
  end.

Definition EventType_members : list EventType :=
  [task_created; task_started; step_completed; task_completed; task_failed].

Definition EventType_of_string : string -> option EventType :=
  literal_in EventType_literal EventType_members.


Record BaseEvent := {
  event_type : EventType;
  task_id : string;
  timestamp : string
}.

(** What an event declares, interface by interface: each of the five
    narrows [event_type] to one literal and so stores the two other base
    members and the members it declares itself.  (A value of the union may
    carry more than it declares; [ts.StreamEvent] is the type.) *)
Inductive StreamEvent :=
| TaskCreatedEvent (task_id timestamp : string) (query : string)
| TaskStartedEvent (task_id timestamp : string)
| StepCompletedEvent (task_id timestamp : string) (step : ReasoningStep)
| TaskCompletedEvent (task_id timestamp : string) (result : ResearchResult)
| TaskFailedEvent (task_id timestamp : string) (error : string)
    (error_details : option Record_string_unknown).

(** Every member of the union is a [BaseEvent]. *)
Definition base (e : StreamEvent) : BaseEvent :=
  match e with
  | TaskCreatedEvent i t _ =>
      {| event_type := task_created; task_id := i; timestamp := t |}
  | TaskStartedEvent i t =>
      {| event_type := task_started; task_id := i; timestamp := t |}
  | StepCompletedEvent i t _ =>
      {| event_type := step_completed; task_id := i; timestamp := t |}
  | TaskCompletedEvent i t _ =>
      {| event_type := task_completed; task_id := i; timestamp := t |}
  | TaskFailedEvent i t _ _ =>
      {| event_type := task_failed; task_id := i; timestamp := t |}
  end.

Definition tag (e : StreamEvent) : EventType := event_type (base e).

(** ** Sets of member names *)




End events.

(* ===================================================================== *)
(** * API types: api.ts *)
(* ===================================================================== *)

Module api.
Import research.

(** [webhook_url?: string | null]: the member may be absent, and when
    present it may be null.  [max_iterations?: number]. *)
Record CreateResearchRequest := {
  query : string;
  webhook_url : option (option string);
  max_iterations : option number
}.

Record CreateResearchResponse := {
  task_id : string;
  status : TaskStatus;
  created_at : string
}.

Record GetResearchResponse := {
  task : ResearchTask
}.

(** type StreamEventType = "task_created" | "task_started"
      | "step_completed" | "task_completed" | "task_failed" | "heartbeat" *)
Inductive StreamEventType :=
| task_created
| task_started
| step_completed
| task_completed
| task_failed
| heartbeat.

Definition StreamEventType_literal (t : StreamEventType) : string :=
  match t with
  | task_created => "task_created"
  | task_started => "task_started"
  | step_completed => "step_completed"
  | task_completed => "task_completed"
  | task_failed => "task_failed"
  | heartbeat => "heartbeat"
  end.

Definition StreamEventType_members : list StreamEventType :=
  [task_created; task_started; step_completed; task_completed; task_failed;
   heartbeat].

Definition StreamEventType_of_string : string -> option StreamEventType :=
  literal_in StreamEventType_literal StreamEventType_members.

Record ResearchStreamChunk := {
  event : StreamEventType;
  data : Record_string_unknown
}.

End api.

(* ===================================================================== *)
(** * TypeScript values and types *)
(* ===================================================================== *)

(** TypeScript types are structural: a value has an interface type when it
    is an object on which every declared member has its declared type;
    what else the object carries does not matter.  A type is therefore the
    set of the values that have it, and an interface is the list of its
    members with their types. *)

Module ts.

(** [number] is an IEEE double: a finite number (the rational it denotes;
    [Finite 0] is +0), -0, NaN or an infinity. *)
Inductive number :=
| Finite (q : Q)
| NegZero
| NaN
| Infinity
| NegInfinity.


#[local] Unset Elimination Schemes.
Inductive value : Type :=
| Undefined
| Null
| Boolean (b : bool)
| Number (n : number)
| Text (s : string)
| Array (items : list value)
| Object (members : list (string * value)).
#[local] Set Elimination Schemes.

(** Induction on a value, with the hypothesis for the items of an array
    and for the member values of an object. *)
Section Induction.
Variable P : value -> Prop.
Hypothesis HUndefined : P Undefined.
Hypothesis HNull : P Null.
Hypothesis HBoolean : forall b, P (Boolean b).
Hypothesis HNumber : forall n, P (Number n).
Hypothesis HText : forall s, P (Text s).
Hypothesis HArray : forall items, Forall P items -> P (Array items).
Hypothesis HObject :
  forall members, Forall (fun m => P (snd m)) members -> P (Object members).

End Induction.

(** Property lookup [o[k]]; in an object written with a name twice the
    last one counts. *)
Fixpoint property (k : string) (members : list (string * value))
  : option value :=
  match members with
  | [] => None
  | (k', v) :: rest =>
      match property k rest with
      | Some later => Some later
      | None => if String.eqb k k' then Some v else None
      end
  end.


(** ** Types *)

Definition type := value -> bool.

Definition string_type : type :=
  fun v => match v with Text _ => true | _ => false end.

Definition number_type : type :=
  fun v => match v with Number _ => true | _ => false end.

Definition null_type : type :=
  fun v => match v with Null => true | _ => false end.

(** A string literal type, ["pending"]. *)
Definition literal (l : string) : type :=
  fun v => match v with Text s => String.eqb s l | _ => false end.

(** [T[]] *)
Definition array (t : type) : type :=
  fun v => match v with Array items => forallb t items | _ => false end.

(** [A | B | ...] *)
Definition union (ts : list type) : type :=
  fun v => existsb (fun t => t v) ts.

(** [Record<string, unknown>]: the objects. *)
Definition Record_string_unknown : type :=
  fun v => match v with Object _ => true | _ => false end.

(** The members that an interface declares; none of those below is
    optional. *)
Definition declaration := list (string * type).


Definition has (o : list (string * value)) (m : string * type) : bool :=
  match property (fst m) o with
  | Some v => snd m v
  | None => false
  end.

Definition interface (d : declaration) : type :=
  fun v => match v with Object o => forallb (has o) d | _ => false end.

Definition declared (d : declaration) (k : string) : option type :=
  option_map snd (find (fun m => String.eqb k (fst m)) d).

(** [interface I extends B { own }]: the members of [B], with the type
    that [own] gives them where it declares them again, then the members
    that only [own] declares. *)
Definition extends (B own : declaration) : declaration :=
  map (fun m => match declared own (fst m) with
                | Some t => (fst m, t)
                | None => m
                end) B
  ++ filter (fun m => match declared B (fst m) with
                      | Some _ => false
                      | None => true
                      end) own.

(** ** research.ts *)

Definition TaskStatus : type :=
  union (map literal research.TaskStatus_literals).

Definition Citation : declaration :=
  [("title", string_type); ("url", string_type); ("snippet", string_type)].

Definition Inference : declaration :=
  [("claim", string_type);
   ("supporting_citations", array string_type);
   ("degrees_of_separation", number_type);
   ("reasoning", string_type)].

Definition ReasoningStep : declaration :=
  [("step_number", number_type);
   ("action", string_type);
   ("input", string_type);
   ("output", string_type);
   ("rationale", string_type)].

Definition ResearchResult : declaration :=
  [("summary", string_type);
   ("key_findings", array string_type);
   ("inferences", array (interface Inference));
   ("reasoning_trace", array (interface ReasoningStep));
   ("citations", array (interface Citation));
   ("confidence_score", number_type)].

Definition ResearchTask : declaration :=
  [("id", string_type);
   ("query", string_type);
   ("status", TaskStatus);
   ("result", union [interface ResearchResult; null_type]);
   ("error_message", union [string_type; null_type]);
   ("created_at", string_type);
   ("started_at", union [string_type; null_type]);
   ("completed_at", union [string_type; null_type])].

(** ** events.ts *)

Definition EventType : type :=
  union (map (fun t => literal (events.EventType_literal t))
             events.EventType_members).

Definition BaseEvent : declaration :=
  [("event_type", EventType);
   ("task_id", string_type);
   ("timestamp", string_type)].

Definition TaskCreatedEvent : declaration :=
  extends BaseEvent
    [("event_type", literal "task_created"); ("query", string_type)].

Definition TaskStartedEvent : declaration :=
  extends BaseEvent [("event_type", literal "task_started")].

Definition StepCompletedEvent : declaration :=
  extends BaseEvent
    [("event_type", literal "step_completed");
     ("step", interface ReasoningStep)].

Definition TaskCompletedEvent : declaration :=
  extends BaseEvent
    [("event_type", literal "task_completed");
     ("result", interface ResearchResult)].

Definition TaskFailedEvent : declaration :=
  extends BaseEvent
    [("event_type", literal "task_failed");
     ("error", string_type);
     ("error_details", union [Record_string_unknown; null_type])].

Definition StreamEvent_variants : list declaration :=
  [TaskCreatedEvent; TaskStartedEvent; StepCompletedEvent;
   TaskCompletedEvent; TaskFailedEvent].

Definition StreamEvent : type :=
  union (map interface StreamEvent_variants).



(** ** JSON *)







(** ** Sample values *)





End ts.

(* ===================================================================== *)
(** * The backend package [shared_types], as the README documents it *)
(* ===================================================================== *)

Module shared_types.
Import research api.

(** The outcome of validating a model: the value, or the members that
    failed. *)
Inductive validated (A : Type) :=
| Valid (a : A)
| ValidationError (members : list string).
Arguments Valid {A} a.
Arguments ValidationError {A} members.

Definition within (lo hi : Q) (x : number) : bool :=
  Qle_bool lo x && Qle_bool x hi.

(** Modelled from the spec: the validators of the Pydantic models
    ([packages/shared/python/shared_types/api.py] and [research.py] are not
    among the sources).  The bounds are the Validation Rules of the README:
    [CreateResearchRequest.query]: 1-2000 characters,
    [CreateResearchRequest.max_iterations]: 1-20,
    [ResearchResult.confidence_score]: 0.0-1.0,
    [Inference.degrees_of_separation]: >= 1. *)
Definition query_ok (q : string) : bool :=
  (1 <=? String.length q)%nat && (String.length q <=? 2000)%nat.

Definition max_iterations_ok (m : number) : bool := within 1 20 m.

Definition confidence_score_ok (c : number) : bool := within 0 1 c.

Definition degrees_of_separation_ok (d : number) : bool := Qle_bool 1 d.

Definition failing (name : string) (ok : bool) : list string :=
  if ok then [] else [name].

(** Modelled from the spec: validation of a create-task request; every
    member that breaks its rule is reported, and the request is a valid
    value only when none does. *)
Definition CreateResearchRequest_errors (r : CreateResearchRequest)
  : list string :=
  failing "query" (query_ok (query r)) ++
  match max_iterations r with
  | None => []
  | Some m => failing "max_iterations" (max_iterations_ok m)
  end.

Definition validate_CreateResearchRequest (r : CreateResearchRequest)
  : validated CreateResearchRequest :=
  match CreateResearchRequest_errors r with
  | [] => Valid r
  | errors => ValidationError errors
  end.

(** Modelled from the spec: validation of an inference and of a research
    result (a result validates the inferences it contains). *)
Definition validate_Inference (i : Inference) : validated Inference :=
  match failing "degrees_of_separation"
          (degrees_of_separation_ok (degrees_of_separation i)) with
  | [] => Valid i
  | errors => ValidationError errors
  end.

Definition Inference_ok (i : Inference) : bool :=
  match validate_Inference i with Valid _ => true | _ => false end.

Definition validate_ResearchResult (r : ResearchResult)
  : validated ResearchResult :=
  match failing "inferences" (forallb Inference_ok (inferences r)) ++
        failing "confidence_score" (confidence_score_ok (confidence_score r))
  with
  | [] => Valid r
  | errors => ValidationError errors
  end.

(** The handler of the README:
<<
    task = ResearchTask(id=str(uuid4()), query=request.query,
                        status=TaskStatus.PENDING)
    return CreateResearchResponse(task_id=task.id, status=task.status,
                                  created_at=task.created_at)
>>
    [uuid4] and [now] are the values of [str(uuid4())] and of the creation
    time; the members the constructor does not name are null. *)
Definition new_task (uuid4 now : string) (request : CreateResearchRequest)
  : ResearchTask :=
  {| research.id := uuid4;
     research.query := api.query request;
     research.status := pending;
     research.result := None;
     research.error_message := None;
     research.created_at := now;
     research.started_at := None;
     research.completed_at := None |}.

Definition create_research (uuid4 now : string)
    (request : CreateResearchRequest) : CreateResearchResponse :=
  let task := new_task uuid4 now request in
  {| api.task_id := research.id task;
     api.status := research.status task;
     api.created_at := research.created_at task |}.

(** Modelled from the spec: the lifecycle of a task, "created in pending,
    transitions monotonically through running to a terminal state
    (completed or failed)".  The pipeline that moves a task from one status
    to the next is not among the sources; what the sources have is the
    column [research_tasks.status], which [Stmt.update_status] changes. *)
Inductive transition : TaskStatus -> TaskStatus -> Prop :=
| start : transition pending running
| complete : transition running completed
| fail : transition running failed.

(** How far along its lifecycle a status is. *)
Definition stage (s : TaskStatus) : nat :=
  match s with
  | pending => 0
  | running => 1
  | completed | failed => 2
  end.

Definition earlier (a b : TaskStatus) : Prop := (stage a < stage b)%nat.

End shared_types.

(* ===================================================================== *)
(** * Sample values *)
(* ===================================================================== *)

Module sample.
Import Sql.

(** INSERT INTO research_tasks (id, query, status) VALUES (k, q, st) *)
Definition task_row (k : uuid) (q st : string) : research_tasks.row :=
  research_tasks.insert_values 0%N 0 (Some (Some k)) (Some (Some q)) None
    (Some (Some st)) None None None None None None None.

(** INSERT INTO research_tasks (query) VALUES (q) *)
Definition default_task_row (k : uuid) (q : string) : research_tasks.row :=
  research_tasks.insert_values k 0 None (Some (Some q)) None None None None
    None None None None None.

Definition finding_row (k task : uuid) (c : nullable float8)
  : research_findings.row :=
  {| research_findings.id := Some k;
     research_findings.task_id := Some task;
     research_findings.sub_query := Some "What is mixture-of-experts?";
     research_findings.response := Some "An architecture of experts.";
     research_findings.citations := Some (JArray []);
     research_findings.confidence := c;
     research_findings.created_at := Some 0 |}.

Definition inference_row (k task : uuid) (d : Z) : inferences.row :=
  {| inferences.id := Some k;
     inferences.task_id := Some task;
     inferences.claim := Some "MoE is parameter-efficient";
     inferences.supporting_citations := Some (JArray []);
     inferences.degrees_of_separation := Some d;
     inferences.reasoning := Some "Direct claim from the abstract";
     inferences.created_at := Some 0 |}.

Definition eval_row (k task : uuid) (s : nullable float8)
  : eval_results.row :=
  {| eval_results.id := Some k;
     eval_results.task_id := Some task;
     eval_results.eval_type := Some "reasoning_quality";
     eval_results.score := s;
     eval_results.details := None;
     eval_results.created_at := Some 0 |}.

(** One task, nothing else. *)
Definition one_task : Db.database :=
  {| Db.research_tasks := [task_row 1%N "Compare RSC and SSR" "pending"];
     Db.research_findings := []; Db.inferences := []; Db.eval_results := [] |}.

(** Two tasks with rows of each referencing table. *)
Definition two_tasks : Db.database :=
  {| Db.research_tasks := [task_row 1%N "first" "completed";
                  task_row 2%N "second" "running"];
     Db.research_findings := [finding_row 10%N 1%N (Some (Finite (92 # 100)));
                     finding_row 11%N 2%N None;
                     finding_row 12%N 1%N (Some (Finite (95 # 100)))];
     Db.inferences := [inference_row 20%N 2%N 1; inference_row 21%N 1%N 2];
     Db.eval_results := [eval_row 30%N 1%N (Some (Finite (85 # 100)));
                  eval_row 31%N 2%N None] |}.

Definition inference (d : number) : research.Inference :=
  {| research.claim := "MoE is parameter-efficient";
     research.supporting_citations := ["https://arxiv.org/abs/2401.04088"];
     research.degrees_of_separation := d;
     research.reasoning := "Direct claim from the abstract" |}.

Definition result (c : number) : research.ResearchResult :=
  {| research.summary := "Recent advances";
     research.key_findings := ["MoE models achieve better scaling"];
     research.inferences := [inference 1%Q; inference 2%Q];
     research.reasoning_trace :=
       [{| research.step_number := 1%Q; research.action := "search";
           research.input := "transformers"; research.output := "papers";
           research.rationale := "start broad" |}];
     research.citations :=
       [{| research.title := "Mixtral of Experts";
           research.url := "https://arxiv.org/abs/2401.04088";
           research.snippet := "We introduce Mixtral 8x7B" |}];
     research.confidence_score := c |}.

Definition task (st : research.TaskStatus)
    (r : option research.ResearchResult) (started done : option string)
  : research.ResearchTask :=
  {| research.id := "00000000-0000-0000-0000-000000000001";
     research.query := "What are the latest advances?";
     research.status := st;
     research.result := r;
     research.error_message := None;
     research.created_at := "2026-01-15T10:00:00Z";
     research.started_at := started;
     research.completed_at := done |}.

(** A query of [n] characters. *)
Fixpoint chars (n : nat) : string :=
  match n with
  | O => EmptyString
  | S n' => String "a" (chars n')
  end.

Definition request (q : string) (m : option number)
  : api.CreateResearchRequest :=
  {| api.query := q; api.webhook_url := None; api.max_iterations := m |}.

End sample.

(* ===================================================================== *)
(** * Statements on the database *)
(* ===================================================================== *)

Module Stmt.
Import Sql Db.

(** A WHERE clause selects the rows on which its condition is TRUE. *)
Definition selected (c : bool3) : bool :=
  match c with TRUE => true | _ => false end.

Definition uuid_eq : nullable uuid -> nullable uuid -> bool3 := lift2 N.eqb.

(** [x IN (SELECT ...)]: TRUE when [x] equals a row of the subquery,
    otherwise UNKNOWN when [x] or one of the rows is NULL, otherwise
    FALSE. *)
Fixpoint uuid_in (x : nullable uuid) (ids : list (nullable uuid)) : bool3 :=
  match ids with
  | [] => FALSE
  | i :: rest => or3 (uuid_eq x i) (uuid_in x rest)
  end.

(** SELECT id FROM research_tasks WHERE cond *)
Definition select_ids (cond : research_tasks.row -> bool3) (db : database)
  : list (nullable uuid) :=
  map research_tasks.id
      (filter (fun r => selected (cond r)) (research_tasks db)).

(** SELECT * FROM research_tasks WHERE id = key *)
Definition select_task (key : uuid) (db : database)
  : list research_tasks.row :=
  filter (fun r => selected (uuid_eq (research_tasks.id r) (Some key)))
         (research_tasks db).

(** SELECT COUNT( * ) FROM t WHERE cond *)
Definition count_where {R} (cond : R -> bool3) (rows : list R) : nat :=
  List.length (filter (fun r => selected (cond r)) rows).

(** DELETE FROM t WHERE cond, for a table that no foreign key references:
    the selected rows go, the others stay. *)
Definition delete_where {R} (cond : R -> bool3) (rows : list R) : list R :=
  filter (fun r => negb (selected (cond r))) rows.

Definition delete_findings_where (cond : research_findings.row -> bool3)
    (db : database) : database :=
  {| research_tasks := research_tasks db;
     research_findings := delete_where cond (research_findings db);
     inferences := inferences db;
     eval_results := eval_results db |}.

Definition delete_inferences_where (cond : inferences.row -> bool3)
    (db : database) : database :=
  {| research_tasks := research_tasks db;
     research_findings := research_findings db;
     inferences := delete_where cond (inferences db);
     eval_results := eval_results db |}.

Definition delete_evals_where (cond : eval_results.row -> bool3)
    (db : database) : database :=
  {| research_tasks := research_tasks db;
     research_findings := research_findings db;
     inferences := inferences db;
     eval_results := delete_where cond (eval_results db) |}.

(** The referential actions that the deletion of the task [key] triggers
    in the three referencing tables. *)
Definition cascade (key : uuid) (db : database) : option database :=
  match on_delete research_findings.task_id_on_delete
                  research_findings.task_id key (research_findings db),
        on_delete inferences.task_id_on_delete
                  inferences.task_id key (inferences db),
        on_delete eval_results.task_id_on_delete
                  eval_results.task_id key (eval_results db) with
  | Some fs, Some is_, Some es =>
      Some {| research_tasks := research_tasks db;
              research_findings := fs; inferences := is_;
              eval_results := es |}
  | _, _, _ => None
  end.

(** The actions for each deleted key in turn; a NULL key is referenced by
    nothing. *)
Fixpoint cascade_all (keys : list (nullable uuid)) (db : database)
  : option database :=
  match keys with
  | [] => Some db
  | None :: rest => cascade_all rest db
  | Some key :: rest =>
      match cascade key db with
      | Some db' => cascade_all rest db'
      | None => None
      end
  end.

(** DELETE FROM research_tasks WHERE cond *)
Definition delete_tasks_where (cond : research_tasks.row -> bool3)
    (db : database) : option database :=
  match cascade_all (select_ids cond db) db with
  | Some db' =>
      Some {| research_tasks := delete_where cond (research_tasks db');
              research_findings := research_findings db';
              inferences := inferences db';
              eval_results := eval_results db' |}
  | None => None
  end.

(** The row with another status. *)
Definition with_status (s : nullable string) (r : research_tasks.row)
  : research_tasks.row :=
  {| research_tasks.id := research_tasks.id r;
     research_tasks.query := research_tasks.query r;
     research_tasks.config := research_tasks.config r;
     research_tasks.status := s;
     research_tasks.result := research_tasks.result r;
     research_tasks.reasoning_trace := research_tasks.reasoning_trace r;
     research_tasks.error := research_tasks.error r;
     research_tasks.created_at := research_tasks.created_at r;
     research_tasks.started_at := research_tasks.started_at r;
     research_tasks.completed_at := research_tasks.completed_at r;
     research_tasks.metadata := research_tasks.metadata r |}.

(** UPDATE research_tasks SET status = s WHERE cond: every selected row
    gets the new status, the statement fails as a whole when a new row
    breaks a row constraint of the table.  The schema declares no trigger
    and no rule, so nothing else is looked at; the ids do not change, so
    the primary key and the references stay as they are. *)
Definition set_status_where (cond : research_tasks.row -> bool3)
    (s : nullable string) (rows : list research_tasks.row)
  : list research_tasks.row :=
  map (fun r => if selected (cond r) then with_status s r else r) rows.

Definition update_status_where (cond : research_tasks.row -> bool3)
    (s : nullable string) (db : database) : option database :=
  if forallb (fun r => negb (selected (cond r))
                       || research_tasks.accepts (with_status s r))
             (research_tasks db)
  then Some {| research_tasks := set_status_where cond s (research_tasks db);
               research_findings := research_findings db;
               inferences := inferences db;
               eval_results := eval_results db |}
  else None.

(** UPDATE research_tasks SET status = s WHERE id = key *)
Definition update_status (key : uuid) (s : nullable string)
  : database -> option database :=
  update_status_where (fun r => uuid_eq (research_tasks.id r) (Some key)) s.

(** The values an INSERT stores in the referencing tables: the DEFAULT of
    a column that the statement does not name. *)
Definition finding_values (gen_random_uuid : uuid) (now : timestamptz)
    (id_ task_id_ : option (nullable uuid))
    (sub_query_ response_ : option (nullable string))
    (citations_ : option (nullable jsonb))
    (confidence_ : option (nullable float8))
    (created_at_ : option (nullable timestamptz)) : research_findings.row :=
  {| research_findings.id := column id_ (Some gen_random_uuid);
     research_findings.task_id := column task_id_ None;
     research_findings.sub_query := column sub_query_ None;
     research_findings.response := column response_ None;
     research_findings.citations := column citations_ (Some (JArray []));
     research_findings.confidence := column confidence_ None;
     research_findings.created_at := column created_at_ (Some now) |}.

Definition inference_values (gen_random_uuid : uuid) (now : timestamptz)
    (id_ task_id_ : option (nullable uuid))
    (claim_ : option (nullable string))
    (supporting_citations_ : option (nullable jsonb))
    (degrees_of_separation_ : option (nullable Z))
    (reasoning_ : option (nullable string))
    (created_at_ : option (nullable timestamptz)) : inferences.row :=
  {| inferences.id := column id_ (Some gen_random_uuid);
     inferences.task_id := column task_id_ None;
     inferences.claim := column claim_ None;
     inferences.supporting_citations :=
       column supporting_citations_ (Some (JArray []));
     inferences.degrees_of_separation := column degrees_of_separation_ None;
     inferences.reasoning := column reasoning_ None;
     inferences.created_at := column created_at_ (Some now) |}.

Definition eval_values (gen_random_uuid : uuid) (now : timestamptz)
    (id_ task_id_ : option (nullable uuid))
    (eval_type_ : option (nullable string))
    (score_ : option (nullable float8))
    (details_ : option (nullable jsonb))
    (created_at_ : option (nullable timestamptz)) : eval_results.row :=
  {| eval_results.id := column id_ (Some gen_random_uuid);
     eval_results.task_id := column task_id_ None;
     eval_results.eval_type := column eval_type_ None;
     eval_results.score := column score_ None;
     eval_results.details := column details_ None;
     eval_results.created_at := column created_at_ (Some now) |}.

(** INSERT ... VALUES (...), (...): the rows in turn; the statement fails
    as a whole when one of them is refused. *)
Fixpoint insert_all {R} (insert : R -> database -> option database)
    (rows : list R) (db : database) : option database :=
  match rows with
  | [] => Some db
  | r :: rest =>
      match insert r db with
      | Some db' => insert_all insert rest db'
      | None => None
      end
  end.

(** A script: the statements in turn, stopping at the first that fails. *)
Fixpoint script (stmts : list (database -> option database)) (db : database)
  : option database :=
  match stmts with
  | [] => Some db
  | s :: rest =>
      match s db with
      | Some db' => script rest db'
      | None => None
      end
  end.

End Stmt.

(* ===================================================================== *)
(** * Integrity of a database *)
(* ===================================================================== *)

Module Integrity.
Import Sql Db.

(** A referencing table is in order when each row satisfies the row
    constraints, the primary key is unique and every reference is the id
    of a task. *)
Definition table_ok {R} (accepts : R -> bool) (pk fk : R -> nullable uuid)
    (parents : list research_tasks.row) (rows : list R) : Prop :=
  Forall (fun r => accepts r = true) rows
  /\ NoDup (map pk rows)
  /\ Forall (fun r => key_present research_tasks.id (fk r) parents = true)
            rows.

Definition consistent (db : database) : Prop :=
  (Forall (fun r => research_tasks.accepts r = true) (research_tasks db)
   /\ NoDup (map research_tasks.id (research_tasks db)))
  /\ table_ok research_findings.accepts research_findings.id
              research_findings.task_id (research_tasks db)
              (research_findings db)
  /\ table_ok inferences.accepts inferences.id inferences.task_id
              (research_tasks db) (inferences db)
  /\ table_ok eval_results.accepts eval_results.id eval_results.task_id
              (research_tasks db) (eval_results db).

(** The statements of a session. *)
Inductive statement :=
| INSERT_task (r : research_tasks.row)
| INSERT_finding (r : research_findings.row)
| INSERT_inference (r : inferences.row)
| INSERT_eval (r : eval_results.row)
| DELETE_task (key : uuid).

Definition exec (s : statement) (db : database) : option database :=
  match s with
  | INSERT_task r => insert_task r db
  | INSERT_finding r => insert_finding r db
  | INSERT_inference r => insert_inference r db
  | INSERT_eval r => insert_eval r db
  | DELETE_task key => delete_task key db
  end.

(** A session: a statement that fails leaves the database as it was and
    the session goes on. *)
Fixpoint session (stmts : list statement) (db : database) : database :=
  match stmts with
  | [] => db
  | s :: rest =>
      match exec s db with
      | Some db' => session rest db'
      | None => session rest db
      end
  end.

End Integrity.

(* ===================================================================== *)
(** * The indexes: 002_add_indexes.sql *)
(* ===================================================================== *)

(** A btree index keeps, for each row, an entry with the values of the
    indexed columns, and refuses a row whose entry is too large for a page
    of the index (error 54000, "index row size exceeds btree maximum").
    The size of an entry depends on the bytes of the values after
    compression, which this development does not compute: [fits] says
    whether an entry is small enough.  [Db] is the schema of migration 001
    alone; with migration 002 an INSERT into [eval_results] has to pass
    the three btree indexes on the table as well. *)

Module indexes.
Import Sql Db.

Inductive datum :=
| UUID (u : nullable uuid)
| TEXT (s : nullable string).

(** CREATE INDEX idx_eval_results_task ON eval_results(task_id) *)
Definition idx_eval_results_task (r : eval_results.row) : list datum :=
  [UUID (eval_results.task_id r)].

(** CREATE INDEX idx_eval_results_type ON eval_results(eval_type) *)
Definition idx_eval_results_type (r : eval_results.row) : list datum :=
  [TEXT (eval_results.eval_type r)].

(** CREATE INDEX idx_eval_results_task_type
      ON eval_results(task_id, eval_type) *)
Definition idx_eval_results_task_type (r : eval_results.row) : list datum :=
  [UUID (eval_results.task_id r); TEXT (eval_results.eval_type r)].

Definition eval_results_indexes
  : list (eval_results.row -> list datum) :=
  [idx_eval_results_task; idx_eval_results_type; idx_eval_results_task_type].

(** INSERT INTO eval_results with both migrations applied. *)
Definition insert_eval (fits : list datum -> bool) (r : eval_results.row)
    (db : database) : option database :=
  if forallb (fun index => fits (index r)) eval_results_indexes
  then Db.insert_eval r db
  else None.

(** A test for examples: an entry fits when its texts have at most 2000
    characters. *)
Definition short_texts (entry : list datum) : bool :=
  forallb (fun d => match d with
                    | TEXT (Some s) => (String.length s <=? 2000)%nat
                    | _ => true
                    end) entry.

End indexes.

(* ===================================================================== *)
(** * Custom types: the enum eval_type of types.sql *)
(* ===================================================================== *)

Module custom_types.
(** CREATE TYPE eval_type AS ENUM ('reasoning_quality', 'hallucination',
      'citation_accuracy', 'inference_validity', 'source_relevance',
      'completeness') *)
Definition eval_type : list string :=
  ["reasoning_quality"; "hallucination"; "citation_accuracy";
   "inference_validity"; "source_relevance"; "completeness"].

Definition eval_type_in (s : string) : option nat :=
  Sql.enum_in eval_type s.

(** The output function of an enum type: the label at a position. *)
Definition enum_out (labels : list string) (i : nat) : option string :=
  nth_error labels i.
End custom_types.

(* ===================================================================== *)
(** * The seed script *)
(* ===================================================================== *)

Module seed.
Import Sql Db Stmt.

(** What the script takes from its environment: the value of NOW() in
    each of its statements (numbered from 1), the ids that
    gen_random_uuid() draws for the rows of the referencing tables
    (numbered from 0), and the timestamp one day before another, which
    depends on the time zone of the session.  The four statements on
    [research_tasks] name the id, so no id is drawn for them and the
    default handed to [insert_values] there is not used. *)
Record env := {
  now : nat -> timestamptz;
  gen_random_uuid : nat -> uuid;
  minus_1_day : timestamptz -> timestamptz
}.

(** Intervals, in microseconds. *)
Definition seconds (n : Z) : Z := n * 1000000.
Definition minutes (n : Z) : Z := seconds (60 * n).
Definition hours (n : Z) : Z := minutes (60 * n).

(** A column named in the INSERT with a value that is not NULL. *)
Definition val {A} (a : A) : option (nullable A) := Some (Some a).

(** The double quote, for the texts that contain one. *)
Definition dq : string := String (Ascii.ascii_of_nat 34) EmptyString.

(** [metadata->>'seed' = 'true'].  The operator [->>] gives the member of
    an object as text, and NULL when the value is no object, has no such
    member, or the member is the JSON null.  The text of a JSON string is
    the string, that of a boolean is 'true' or 'false'; the text of a
    number, an array or an object is never 'true'. *)
Definition is_seed (r : research_tasks.row) : bool3 :=
  match research_tasks.metadata r with
  | Some (JObject members) =>
      match get "seed" members with
      | Some (JString s) => of_bool (String.eqb s "true")
      | Some (JBool b) => of_bool b
      | Some (JNumber _) | Some (JArray _) | Some (JObject _) => FALSE
      | Some JNull | None => UNKNOWN
      end
  | _ => UNKNOWN
  end.

(** [task_id IN (SELECT id FROM research_tasks
                 WHERE metadata->>'seed' = 'true')] *)
Definition of_seed_task (db : database) (task_id : nullable uuid) : bool3 :=
  uuid_in task_id (select_ids is_seed db).

(** Clear existing seed data: the first four statements. *)
Definition clear : list (database -> option database) :=
  [ (fun db => Some (delete_evals_where
                       (fun r => of_seed_task db (eval_results.task_id r))
                       db));
    (fun db => Some (delete_inferences_where
                       (fun r => of_seed_task db (inferences.task_id r))
                       db));
    (fun db => Some (delete_findings_where
                       (fun r =>
                          of_seed_task db (research_findings.task_id r))
                       db));
    delete_tasks_where is_seed ].

Definition seed_metadata : jsonb := JObject [("seed", JString "true")].

(** Sample completed research task *)
Definition completed_task (e : env) : research_tasks.row :=
  research_tasks.insert_values (gen_random_uuid e 0) (now e 5)
    (val 1%N)
    (val "What are the latest advances in transformer architectures for language models?")
    (val (JObject [("max_iterations", JNumber 3%Q);
                   ("depth", JString "deep");
                   ("sources", JArray [JString "perplexity"])]))
    (val "completed")
    (val (JObject
            [("summary",
              JString "Recent advances include mixture-of-experts, sparse attention, and state-space models...");
             ("key_findings",
              JArray [JString "MoE models achieve better scaling";
                      JString "Flash attention reduces memory";
                      JString "Mamba shows promise for long context"])]))
    (val (JObject
            [("steps",
              JArray [JObject
                        [("step", JNumber 1%Q);
                         ("agent", JString "planner");
                         ("output",
                          JString "Breaking down into sub-queries...")]]);
             ("total_tokens", JNumber 5000%Q)]))
    None
    (val (now e 5 - hours 2))
    (val (now e 5 - hours 2 + seconds 5))
    (val (now e 5 - hours 1))
    (val seed_metadata).

(** Sample pending research task *)
Definition pending_task (e : env) : research_tasks.row :=
  research_tasks.insert_values (gen_random_uuid e 0) (now e 6)
    (val 2%N)
    (val "Compare React Server Components vs traditional SSR approaches")
    (val (JObject [("max_iterations", JNumber 5%Q);
                   ("depth", JString "shallow")]))
    (val "pending")
    None None None
    (val (now e 6 - minutes 30))
    None None
    (val seed_metadata).

(** Sample running research task *)
Definition running_task (e : env) : research_tasks.row :=
  research_tasks.insert_values (gen_random_uuid e 0) (now e 7)
    (val 3%N)
    (val "What are best practices for implementing RAG systems in production?")
    (val (JObject [("max_iterations", JNumber 4%Q);
                   ("depth", JString "deep");
                   ("sources", JArray [JString "perplexity";
                                       JString "web"])]))
    (val "running")
    None None None
    (val (now e 7 - minutes 10))
    (val (now e 7 - minutes 9))
    None
    (val seed_metadata).

(** Sample failed research task *)
Definition failed_task (e : env) : research_tasks.row :=
  research_tasks.insert_values (gen_random_uuid e 0) (now e 8)
    (val 4%N)
    (val "Analyze proprietary internal database schema")
    (val (JObject []))
    (val "failed")
    None None
    (val "Access denied: Cannot access internal resources")
    (val (minus_1_day e (now e 8)))
    (val (minus_1_day e (now e 8) + seconds 2))
    (val (minus_1_day e (now e 8) + seconds 10))
    (val seed_metadata).

Definition citation (url title snippet : string) : json :=
  JObject [("url", JString url); ("title", JString title);
           ("snippet", JString snippet)].

(** Sample research findings for completed task.  The confidences are the
    doubles nearest to 0.92 and 0.95. *)
Definition findings (e : env) : list research_findings.row :=
  [ finding_values (gen_random_uuid e 0) (now e 9) None
      (val 1%N)
      (val "What is mixture-of-experts architecture?")
      (val (String.append
              "Mixture-of-experts (MoE) is an architecture where different "
              (String.append dq (String.append "expert" (String.append dq
              " neural networks specialize in different parts of the input space...")))))
      (val (JArray [citation "https://arxiv.org/abs/2401.04088"
                             "Mixtral of Experts"
                             "We introduce Mixtral 8x7B..."]))
      (val (Finite (8286623314361713 # 9007199254740992)))
      None;
    finding_values (gen_random_uuid e 1) (now e 9) None
      (val 1%N)
      (val "How does Flash Attention improve transformer efficiency?")
      (val "Flash Attention is an IO-aware exact attention algorithm that reduces memory usage from O(N^2) to O(N)...")
      (val (JArray [citation "https://arxiv.org/abs/2205.14135"
                             "FlashAttention"
                             "We propose FlashAttention..."]))
      (val (Finite (4278419646001971 # 4503599627370496)))
      None ].

(** Sample inferences for completed task *)
Definition inferred (e : env) : list inferences.row :=
  [ inference_values (gen_random_uuid e 2) (now e 10) None
      (val 1%N)
      (val "MoE architectures are more parameter-efficient than dense models")
      (val (JArray
              [JObject [("url", JString "https://arxiv.org/abs/2401.04088")]]))
      (val 1)
      (val "Direct claim from the Mixtral paper abstract stating 8x7B parameters with only 12.9B active")
      None;
    inference_values (gen_random_uuid e 3) (now e 10) None
      (val 1%N)
      (val "Combining MoE with Flash Attention could yield significant efficiency gains")
      (val (JArray
              [JObject [("url", JString "https://arxiv.org/abs/2401.04088")];
               JObject [("url", JString "https://arxiv.org/abs/2205.14135")]]))
      (val 2)
      (val "Inference: MoE reduces active parameters, Flash Attention reduces memory. Combining both could multiply benefits.")
      None ].

(** Sample eval results for completed task.  The scores are the doubles
    nearest to 0.85 and 0.95. *)
Definition evals (e : env) : list eval_results.row :=
  [ eval_values (gen_random_uuid e 4) (now e 11) None
      (val 1%N)
      (val "reasoning_quality")
      (val (Finite (7656119366529843 # 9007199254740992)))
      (val (JObject
              [("strengths", JArray [JString "Clear logical chain";
                                     JString "Good source usage"]);
               ("weaknesses",
                JArray [JString "Could explore more alternatives"])]))
      None;
    eval_values (gen_random_uuid e 5) (now e 11) None
      (val 1%N)
      (val "citation_accuracy")
      (val (Finite (4278419646001971 # 4503599627370496)))
      (val (JObject [("verified_citations", JNumber 2%Q);
                     ("total_citations", JNumber 2%Q);
                     ("issues", JArray [])]))
      None ].

(** The seven INSERT statements. *)
Definition populate (e : env) : list (database -> option database) :=
  [ insert_all insert_task [completed_task e];
    insert_all insert_task [pending_task e];
    insert_all insert_task [running_task e];
    insert_all insert_task [failed_task e];
    insert_all insert_finding (findings e);
    insert_all insert_inference (inferred e);
    insert_all insert_eval (evals e) ].

(** The script up to its last statement. *)
Definition run (e : env) : database -> option database :=
  script (clear ++ populate e).

(** Verify seed data: one row per table, the table name and the count. *)
Definition verify (db : database) : list (string * nat) :=
  [ ("research_tasks", count_where is_seed (research_tasks db));
    ("research_findings",
     count_where (fun r => of_seed_task db (research_findings.task_id r))
                 (research_findings db));
    ("inferences",
     count_where (fun r => of_seed_task db (inferences.task_id r))
                 (inferences db));
    ("eval_results",
     count_where (fun r => of_seed_task db (eval_results.task_id r))
                 (eval_results db)) ].

(** The ids that the script gives its tasks. *)
Definition task_ids : list (nullable uuid) :=
  [Some 1%N; Some 2%N; Some 3%N; Some 4%N].

(** The script can run on a database in order whose tasks with one of
    these ids, if any, are seed tasks. *)
Definition ready (db : database) : Prop :=
  Integrity.consistent db
  /\ forall t, In t (research_tasks db) ->
               In (research_tasks.id t) task_ids ->
               selected (is_seed t) = true.

(** The six generated ids are new in their tables. *)
Definition fresh (e : env) (db : database) : Prop :=
  (gen_random_uuid e 0 <> gen_random_uuid e 1
   /\ ~ In (Some (gen_random_uuid e 0))
           (map research_findings.id (research_findings db))
   /\ ~ In (Some (gen_random_uuid e 1))
           (map research_findings.id (research_findings db)))
  /\ (gen_random_uuid e 2 <> gen_random_uuid e 3
      /\ ~ In (Some (gen_random_uuid e 2))
              (map inferences.id (inferences db))
      /\ ~ In (Some (gen_random_uuid e 3))
              (map inferences.id (inferences db)))
  /\ (gen_random_uuid e 4 <> gen_random_uuid e 5
      /\ ~ In (Some (gen_random_uuid e 4))
              (map eval_results.id (eval_results db))
      /\ ~ In (Some (gen_random_uuid e 5))
              (map eval_results.id (eval_results db))).

(** The database without its seed tasks and without the rows that refer
    to them. *)
Definition cleared (db : database) : database :=
  {| research_tasks := delete_where is_seed (research_tasks db);
     research_findings :=
       delete_where (fun r => of_seed_task db (research_findings.task_id r))
                    (research_findings db);
     inferences :=
       delete_where (fun r => of_seed_task db (inferences.task_id r))
                    (inferences db);
     eval_results :=
       delete_where (fun r => of_seed_task db (eval_results.task_id r))
                    (eval_results db) |}.

(** The cleared database with the rows of the script after it. *)
Definition seeded (e : env) (db : database) : database :=
  {| research_tasks :=
       research_tasks (cleared db)
       ++ [completed_task e; pending_task e; running_task e; failed_task e];
     research_findings := research_findings (cleared db) ++ findings e;
     inferences := inferences (cleared db) ++ inferred e;
     eval_results := eval_results (cleared db) ++ evals e |}.

(** An environment for examples. *)
Definition example_env (first_id : uuid) : env :=
  {| now := fun n => 1768471200000000 + seconds (Z.of_nat n);
     gen_random_uuid := fun n => (first_id + N.of_nat n)%N;
     minus_1_day := fun t => t - hours 24 |}.

(** A database for examples: a task that is no seed task, with a row in
    each referencing table, ... *)
Definition foreign : database :=
  {| research_tasks := [sample.task_row 7%N "Compare RSC and SSR" "running"];
     research_findings := [sample.finding_row 50%N 7%N None];
     inferences := [sample.inference_row 51%N 7%N 1];
     eval_results := [sample.eval_row 52%N 7%N None] |}.

(** ... and the same database after the script has run on it. *)
Definition mixed : database := seeded (example_env 100%N) foreign.

End seed.

(* ===================================================================== *)
(** * The create-task response as a JSON object *)
(* ===================================================================== *)

Module JsonApi.
Import research api Json.

Definition of_CreateResearchResponse (r : CreateResearchResponse) : json :=
  JObject [("task_id", JString (task_id r));
           ("status", JString (TaskStatus_literal (status r)));
           ("created_at", JString (created_at r))].

Definition to_CreateResearchResponse (j : json)
  : option CreateResearchResponse :=
  m <- as_object j ;;
  task_id_ <- member "task_id" as_string m ;;
  status_ <- member "status" as_TaskStatus m ;;
  created <- member "created_at" as_string m ;;
  Some {| task_id := task_id_; status := status_; created_at := created |}.

End JsonApi.

(* ===================================================================== *)
(** * Properties of the SQL operators *)
(* ===================================================================== *)

Section SqlFacts.
Import Sql.

Lemma text_in_some (s : string) (lits : list string) :
  text_in (Some s) lits = of_bool (existsb (String.eqb s) lits).
Proof.
  induction lits as [|l rest IH]; simpl; [reflexivity|].
  rewrite IH. destruct (String.eqb s l); simpl; [reflexivity|].
  destruct (existsb (String.eqb s) rest); reflexivity.
Qed.

Lemma existsb_eqb_In (s : string) (lits : list string) :
  existsb (String.eqb s) lits = true <-> In s lits.
Proof.
  rewrite existsb_exists. split.
  - intros [x [Hin Heq]]. apply String.eqb_eq in Heq. now subst.
  - intros Hin. exists s. split; [assumption | apply String.eqb_refl].
Qed.

Lemma check_text_in (s : string) (lits : list string) :
  check (text_in (Some s) lits) = true <-> In s lits.
Proof.
  rewrite text_in_some, <- existsb_eqb_In.
  destruct (existsb (String.eqb s) lits); simpl; intuition congruence.
Qed.

Lemma enum_in_accepts (labels : list string) (s : string) :
  enum_in labels s <> None <-> In s labels.
Proof.
  induction labels as [|l rest IH]; simpl.
  - intuition congruence.
  - destruct (String.eqb_spec s l) as [-> | Hne].
    + split; [auto | discriminate].
    + destruct (enum_in rest s) eqn:E; simpl.
      * split; [intros _; right; apply IH; discriminate | discriminate].
      * split; [congruence|]. intros [H | H]; [congruence|].
        apply IH in H. congruence.
Qed.

Lemma float8_geb_finite (q p : Q) :
  float8_geb (Finite q) (Finite p) = true <-> (p <= q)%Q.
Proof.
  unfold float8_geb; simpl. rewrite (Qge_alt q p).
  destruct (q ?= p)%Q; intuition congruence.
Qed.

Lemma float8_leb_finite (q p : Q) :
  float8_leb (Finite q) (Finite p) = true <-> (q <= p)%Q.
Proof.
  unfold float8_leb; simpl. rewrite (Qle_alt q p).
  destruct (q ?= p)%Q; intuition congruence.
Qed.

(** The range condition shared by [chk_confidence_range] and
    [chk_score_range]. *)
Lemma unit_range_check (x : nullable float8) :
  check (or3 (is_null x)
             (and3 (float_ge x (Some (Finite 0)))
                   (float_le x (Some (Finite 1))))) = true
  <-> x = None \/ exists q, x = Some (Finite q) /\ (0 <= q <= 1)%Q.
Proof.
  destruct x as [[q| | |]|]; simpl;
    try (split; [discriminate | intros [H | [q [H _]]]; discriminate]).
  - pose proof (float8_geb_finite q 0) as Hge.
    pose proof (float8_leb_finite q 1) as Hle.
    destruct (float8_geb (Finite q) (Finite 0));
      destruct (float8_leb (Finite q) (Finite 1)); simpl; split;
      try discriminate; try reflexivity.
    + intros _. right. exists q. intuition.
    + intros [H | [q' [Heq [H0 H1]]]]; [discriminate|].
      injection Heq as <-. apply Hle in H1. discriminate.
    + intros [H | [q' [Heq [H0 H1]]]]; [discriminate|].
      injection Heq as <-. apply Hge in H0. discriminate.
    + intros [H | [q' [Heq [H0 H1]]]]; [discriminate|].
      injection Heq as <-. apply Hge in H0. discriminate.
  - split; [intros _; left; reflexivity | reflexivity].
Qed.

End SqlFacts.

(* ===================================================================== *)
(** * What an INSERT guarantees *)
(* ===================================================================== *)

Section Inserts.
Import Sql Db.

Lemma insert_task_inv r db db' :
  insert_task r db = Some db' ->
  research_tasks.accepts r = true
  /\ research_tasks db' = research_tasks db ++ [r].
Proof.
  unfold insert_task. intros H.
  destruct (research_tasks.accepts r); simpl in H; [|discriminate].
  destruct (key_free _ _ _); [|discriminate].
  injection H as <-. split; reflexivity.
Qed.

Lemma insert_finding_inv r db db' :
  insert_finding r db = Some db' ->
  research_findings.accepts r = true
  /\ research_findings db' = research_findings db ++ [r].
Proof.
  unfold insert_finding. intros H.
  destruct (research_findings.accepts r); simpl in H; [|discriminate].
  destruct (key_free _ _ _ && key_present _ _ _); [|discriminate].
  injection H as <-. split; reflexivity.
Qed.

Lemma insert_inference_inv r db db' :
  insert_inference r db = Some db' ->
  inferences.accepts r = true /\ inferences db' = inferences db ++ [r].
Proof.
  unfold insert_inference. intros H.
  destruct (inferences.accepts r); simpl in H; [|discriminate].
  destruct (key_free _ _ _ && key_present _ _ _); [|discriminate].
  injection H as <-. split; reflexivity.
Qed.

Lemma insert_eval_inv r db db' :
  insert_eval r db = Some db' ->
  eval_results.accepts r = true /\ eval_results db' = eval_results db ++ [r].
Proof.
  unfold insert_eval. intros H.
  destruct (eval_results.accepts r); simpl in H; [|discriminate].
  destruct (key_free _ _ _ && key_present _ _ _); [|discriminate].
  injection H as <-. split; reflexivity.
Qed.

Lemma research_tasks_accepts_status r :
  research_tasks.accepts r = true ->
  exists s,
    research_tasks.status r = Some s /\ In s research.TaskStatus_literals.
Proof.
  unfold research_tasks.accepts. intros H.
  apply andb_prop in H as [H Hchk]. apply andb_prop in H as [_ Hnn].
  destruct (research_tasks.status r) as [s|] eqn:E; [|discriminate].
  exists s. split; [reflexivity|].
  unfold research_tasks.chk_task_status in Hchk. rewrite E in Hchk.
  now apply check_text_in in Hchk.
Qed.

Lemma inferences_accepts_degrees r :
  inferences.accepts r = true ->
  exists d, inferences.degrees_of_separation r = Some d /\ 0 <= d.
Proof.
  unfold inferences.accepts. intros H.
  apply andb_prop in H as [H Hchk].
  unfold inferences.chk_degrees_non_negative in Hchk.
  destruct (inferences.degrees_of_separation r) as [d|];
    [|repeat (apply andb_prop in H as [H ?]); discriminate].
  exists d. split; [reflexivity|].
  simpl in Hchk. unfold Z.geb in Hchk.
  destruct (d ?= 0) eqn:E; try discriminate;
    [apply Z.compare_eq in E | apply Z.compare_gt_iff in E]; lia.
Qed.

Lemma degrees_check_bound (d : Z) :
  check (int_ge (Some d) (Some 0)) = true <-> 0 <= d.
Proof.
  simpl. rewrite Z.geb_leb. destruct (Z.leb_spec 0 d); simpl; split;
    intros; try lia; try reflexivity; discriminate.
Qed.

Lemma degrees_of_separation_ok_bound (d : Z) :
  shared_types.degrees_of_separation_ok (inject_Z d) = true <-> 1 <= d.
Proof.
  unfold shared_types.degrees_of_separation_ok.
  rewrite Qle_bool_iff. change 1%Q with (inject_Z 1).
  rewrite <- Zle_Qle. reflexivity.
Qed.

End Inserts.

(* ===================================================================== *)
(** * The bounds on the inference distance (C1) *)
(* ===================================================================== *)

(** C1.  The two lower bounds declared for [degrees_of_separation] differ:
    the CHECK constraint [chk_degrees_non_negative] holds exactly of the
    integers [d >= 0], the backend rule documented in the README exactly of
    [d >= 1].  The integer 0 passes the former, a row that carries it is
    inserted, and the backend validation rejects an inference carrying it.
    Every row that an INSERT into [inferences] stores has a non-null
    [degrees_of_separation >= 0]. *)
Theorem degrees_of_separation_bounds_differ :
  (forall d : Z,
      Sql.check (Sql.int_ge (Some d) (Some 0)) = true <-> 0 <= d)
  /\ (forall d : Z,
      shared_types.degrees_of_separation_ok (inject_Z d) = true <-> 1 <= d)
  /\ (exists d : Z,
      d = 0
      /\ Sql.check
           (inferences.chk_degrees_non_negative
              (sample.inference_row 20%N 1%N d))
         = true
      /\ Db.insert_inference (sample.inference_row 20%N 1%N d) sample.one_task
         <> None
      /\ shared_types.validate_Inference (sample.inference (inject_Z d))
         = shared_types.ValidationError ["degrees_of_separation"])
  /\ (forall r db db',
      Db.insert_inference r db = Some db' ->
      In r (Db.inferences db')
      /\ exists d, inferences.degrees_of_separation r = Some d /\ 0 <= d).
Proof.
  split; [exact degrees_check_bound|].
  split; [exact degrees_of_separation_ok_bound|].
  split.
  - exists 0. repeat split; try reflexivity. vm_compute. discriminate.
  - intros r db db' H. apply insert_inference_inv in H as [Hacc Hrows].
    split.
    + rewrite Hrows. apply in_or_app. right. now left.
    + now apply inferences_accepts_degrees.
Qed.

Lemma degrees_of_separation_bounds_differ_witness :
  exists d, inferences.degrees_of_separation (sample.inference_row 20%N 1%N 0)
            = Some d /\ 0 <= d.
Proof.
  destruct degrees_of_separation_bounds_differ as [_ [_ [_ H]]].
  refine (proj2 (H (sample.inference_row 20%N 1%N 0) sample.one_task _ _)).
  vm_compute. reflexivity.
Defined.

(* ===================================================================== *)
(** * The four task statuses (C6) *)
(* ===================================================================== *)

Lemma literal_in_accepts {A} (literal : A -> string) (members : list A)
    (s : string) :
  research.literal_in literal members s <> None <-> In s (map literal members).
Proof.
  induction members as [|m rest IH]; simpl.
  - intuition congruence.
  - destruct (String.eqb_spec s (literal m)) as [-> | Hne].
    + split; [auto | discriminate].
    + rewrite IH. split; [auto|]. intros [H | H]; [congruence | assumption].
Qed.

(** C6.  The status of a task is one of exactly four members: the union
    [TaskStatus], the CHECK constraint [chk_task_status] (on a non-null
    status; NOT NULL excludes the null one) and the enum type [task_status]
    each accept a string exactly when it is "pending", "running",
    "completed" or "failed", and a row stored in [research_tasks] carries
    one of these. *)
Theorem status_is_one_of_four (s : string) :
  research.TaskStatus_literals = ["pending"; "running"; "completed"; "failed"]
  /\ (research.TaskStatus_of_string s <> None
      <-> In s research.TaskStatus_literals)
  /\ (forall r, research_tasks.status r = Some s ->
        (Sql.check (research_tasks.chk_task_status r) = true
         <-> In s research.TaskStatus_literals))
  /\ (types_sql.task_status_in s <> None
      <-> In s research.TaskStatus_literals)
  /\ (forall r db db',
        Db.insert_task r db = Some db' ->
        research_tasks.status r = Some s ->
        In s research.TaskStatus_literals)
  /\ (forall r, research_tasks.status r = None ->
        research_tasks.accepts r = false)
  /\ (forall t : research.TaskStatus, In t research.TaskStatus_members)
  /\ NoDup research.TaskStatus_literals
  /\ List.length research.TaskStatus_literals = 4%nat.
Proof.
  split; [reflexivity|].
  split; [apply literal_in_accepts|].
  split.
  { intros r H. unfold research_tasks.chk_task_status. rewrite H.
    apply check_text_in. }
  split; [apply enum_in_accepts|].
  split.
  { intros r db db' Hins Hs. apply insert_task_inv in Hins as [Hacc _].
    apply research_tasks_accepts_status in Hacc as [s' [Hs' Hin]].
    rewrite Hs in Hs'. injection Hs' as <-. exact Hin. }
  split.
  { intros r Hs. unfold research_tasks.accepts. rewrite Hs. simpl.
    now rewrite !andb_false_r. }
  split; [intros []; simpl; auto|].
  split; [|reflexivity].
  unfold research.TaskStatus_literals; simpl.
  repeat constructor; simpl; intuition discriminate.
Qed.

Lemma status_is_one_of_four_witness :
  In "running" research.TaskStatus_literals.
Proof.
  destruct (status_is_one_of_four "running") as [_ [_ [_ [_ [H _]]]]].
  eapply (H (sample.task_row 2%N "Best practices for RAG" "running")
            sample.one_task); vm_compute; reflexivity.
Defined.

(* ===================================================================== *)
(** * Confidence and score (C5, C10) *)
(* ===================================================================== *)

Lemma within_bounds (lo hi : Q) (x : number) :
  shared_types.within lo hi x = true <-> (lo <= x <= hi)%Q.
Proof.
  unfold shared_types.within.
  rewrite andb_true_iff, !Qle_bool_iff. reflexivity.
Qed.

Lemma failing_nil name ok : shared_types.failing name ok = [] <-> ok = true.
Proof. destruct ok; simpl; intuition congruence. Qed.

Lemma validate_ResearchResult_valid r r' :
  shared_types.validate_ResearchResult r = shared_types.Valid r' ->
  r' = r
  /\ shared_types.confidence_score_ok (research.confidence_score r) = true
  /\ forallb shared_types.Inference_ok (research.inferences r) = true.
Proof.
  unfold shared_types.validate_ResearchResult. intros H.
  destruct (forallb _ _); simpl in H; [|discriminate].
  destruct (shared_types.confidence_score_ok _); simpl in H; [|discriminate].
  injection H as <-. auto.
Qed.

(** C5, as stated, fails on [interface ResearchResult]: its
    [confidence_score] is any [number], and the object below is a
    [ResearchResult] whose score is 2. *)
Lemma ResearchResult_confidence_score_unbounded :
  exists r : research.ResearchResult,
    r = sample.result 2%Q
    /\ Json.to_ResearchResult (Json.of_ResearchResult r) = Some r
    /\ ~ (0 <= research.confidence_score r <= 1)%Q.
Proof.
  exists (sample.result 2%Q). split; [reflexivity|]. split; [reflexivity|].
  simpl. intros [_ H]. revert H. apply Qlt_not_le. reflexivity.
Qed.

(** C5, amended.  A [ResearchResult] that passes the backend validation has
    its [confidence_score] in [[0, 1]]; a non-null [confidence] of a row
    stored in [research_findings], and a non-null [score] of a row stored in
    [eval_results], is a finite number in [[0, 1]] (neither an infinity nor
    NaN passes the constraint). *)
Theorem validated_confidence_and_stored_scores_in_unit_interval :
  (forall r r',
      shared_types.validate_ResearchResult r = shared_types.Valid r' ->
      (0 <= research.confidence_score r' <= 1)%Q)
  /\ (forall r db db' c,
      Db.insert_finding r db = Some db' ->
      research_findings.confidence r = Some c ->
      exists q, c = Sql.Finite q /\ (0 <= q <= 1)%Q)
  /\ (forall r db db' c,
      Db.insert_eval r db = Some db' ->
      eval_results.score r = Some c ->
      exists q, c = Sql.Finite q /\ (0 <= q <= 1)%Q).
Proof.
  split; [|split].
  - intros r r' H. apply validate_ResearchResult_valid in H as [-> [H _]].
    now apply within_bounds in H.
  - intros r db db' c Hins Hc. apply insert_finding_inv in Hins as [Hacc _].
    unfold research_findings.accepts in Hacc.
    apply andb_prop in Hacc as [_ Hchk].
    unfold research_findings.chk_confidence_range in Hchk.
    apply unit_range_check in Hchk as [Hn | [q [Hq Hr]]]; [congruence|].
    exists q. split; [congruence | assumption].
  - intros r db db' c Hins Hc. apply insert_eval_inv in Hins as [Hacc _].
    unfold eval_results.accepts in Hacc.
    apply andb_prop in Hacc as [_ Hchk].
    unfold eval_results.chk_score_range in Hchk.
    apply unit_range_check in Hchk as [Hn | [q [Hq Hr]]]; [congruence|].
    exists q. split; [congruence | assumption].
Qed.

Lemma validated_confidence_and_stored_scores_in_unit_interval_witness :
  (0 <= research.confidence_score (sample.result (85 # 100)) <= 1)%Q
  /\ (exists q, Sql.Finite (92 # 100) = Sql.Finite q /\ (0 <= q <= 1)%Q)
  /\ (exists q, Sql.Finite (85 # 100) = Sql.Finite q /\ (0 <= q <= 1)%Q).
Proof.
  destruct validated_confidence_and_stored_scores_in_unit_interval
    as [Hr [Hf He]].
  split; [|split].
  - apply (Hr (sample.result (85 # 100))). vm_compute. reflexivity.
  - eapply (Hf (sample.finding_row 10%N 1%N (Some (Sql.Finite (92 # 100))))
               sample.one_task); vm_compute; reflexivity.
  - eapply (He (sample.eval_row 30%N 1%N (Some (Sql.Finite (85 # 100))))
               sample.one_task); vm_compute; reflexivity.
Defined.

(** C10.  The range constraints admit NULL: a row of [research_findings]
    whose [confidence] is NULL satisfies [chk_confidence_range], a row of
    [eval_results] whose [score] is NULL satisfies [chk_score_range], and
    such rows are stored. *)
Theorem null_confidence_and_score_are_admitted :
  (forall r, research_findings.confidence r = None ->
      Sql.check (research_findings.chk_confidence_range r) = true)
  /\ (forall r, eval_results.score r = None ->
      Sql.check (eval_results.chk_score_range r) = true)
  /\ (exists db',
      Db.insert_finding (sample.finding_row 11%N 1%N None) sample.one_task
      = Some db'
      /\ In (sample.finding_row 11%N 1%N None) (Db.research_findings db'))
  /\ (exists db',
      Db.insert_eval (sample.eval_row 31%N 1%N None) sample.one_task
      = Some db'
      /\ In (sample.eval_row 31%N 1%N None) (Db.eval_results db')).
Proof.
  split; [|split; [|split]].
  - intros r H. unfold research_findings.chk_confidence_range.
    rewrite H. reflexivity.
  - intros r H. unfold eval_results.chk_score_range. rewrite H. reflexivity.
  - eexists. split; [vm_compute; reflexivity | simpl; auto].
  - eexists. split; [vm_compute; reflexivity | simpl; auto].
Qed.

Lemma null_confidence_and_score_are_admitted_witness :
  Sql.check (research_findings.chk_confidence_range
               (sample.finding_row 11%N 1%N None)) = true
  /\ Sql.check (eval_results.chk_score_range
                  (sample.eval_row 31%N 1%N None)) = true.
Proof.
  destruct null_confidence_and_score_are_admitted as [Hc [Hs _]].
  split; [apply Hc | apply Hs]; reflexivity.
Defined.

(* ===================================================================== *)
(** * Deleting a task (C3) *)
(* ===================================================================== *)

Section Cascade.
Import Sql Db.
Context {R : Type} (col : R -> nullable uuid) (key : uuid).

Lemma In_others (rows : list R) (r : R) :
  In r (others col key rows) <-> In r rows /\ holds (col r) key = false.
Proof.
  unfold others. rewrite filter_In, negb_true_iff. reflexivity.
Qed.

Lemma referencing_others (rows : list R) :
  referencing col key (others col key rows) = [].
Proof.
  unfold referencing, others.
  induction rows as [|r rows IH]; simpl; [reflexivity|].
  destruct (holds (col r) key) eqn:E; simpl; [exact IH|].
  rewrite E. exact IH.
Qed.

Lemma others_others (rows : list R) :
  others col key (others col key rows) = others col key rows.
Proof.
  unfold others.
  induction rows as [|r rows IH]; simpl; [reflexivity|].
  destruct (holds (col r) key) eqn:E; simpl; [exact IH|].
  rewrite E. simpl. now rewrite IH.
Qed.

(** The table is its referencing rows and its other rows: the lengths add
    up, so a cascade removes as many rows as reference the key. *)
Lemma length_others (rows : list R) :
  (List.length (others col key rows)
   + List.length (referencing col key rows)
   = List.length rows)%nat.
Proof.
  unfold others, referencing.
  induction rows as [|r rows IH]; simpl; [reflexivity|].
  destruct (holds (col r) key); simpl; lia.
Qed.

End Cascade.

(** C3.  DELETE of the task [key] succeeds on every database and deletes
    exactly the rows that depend on it: afterwards no row of
    [research_findings], [inferences] or [eval_results] (nor of
    [research_tasks]) refers to [key], and in each table the rows of the
    other tasks are the same rows in the same order as before. *)
Theorem delete_task_cascades (key : Sql.uuid) (db : Db.database) :
  exists db',
    Db.delete_task key db = Some db'
    /\ (Db.referencing research_tasks.id key (Db.research_tasks db') = []
        /\ Db.referencing research_findings.task_id key
                          (Db.research_findings db') = []
        /\ Db.referencing inferences.task_id key (Db.inferences db') = []
        /\ Db.referencing eval_results.task_id key (Db.eval_results db') = [])
    /\ (Db.research_tasks db'
        = Db.others research_tasks.id key (Db.research_tasks db)
        /\ Db.research_findings db'
           = Db.others research_findings.task_id key (Db.research_findings db)
        /\ Db.inferences db'
           = Db.others inferences.task_id key (Db.inferences db)
        /\ Db.eval_results db'
           = Db.others eval_results.task_id key (Db.eval_results db))
    /\ ((List.length (Db.research_findings db')
         + List.length
             (Db.referencing research_findings.task_id key
                             (Db.research_findings db))
         = List.length (Db.research_findings db))%nat
        /\ (List.length (Db.inferences db')
            + List.length
                (Db.referencing inferences.task_id key (Db.inferences db))
            = List.length (Db.inferences db))%nat
        /\ (List.length (Db.eval_results db')
            + List.length
                (Db.referencing eval_results.task_id key (Db.eval_results db))
            = List.length (Db.eval_results db))%nat)
    /\ (forall r, In r (Db.research_findings db') <->
                  In r (Db.research_findings db)
                  /\ Db.holds (research_findings.task_id r) key = false)
    /\ (forall r, In r (Db.inferences db') <->
                  In r (Db.inferences db)
                  /\ Db.holds (inferences.task_id r) key = false)
    /\ (forall r, In r (Db.eval_results db') <->
                  In r (Db.eval_results db)
                  /\ Db.holds (eval_results.task_id r) key = false).
Proof.
  eexists. split; [reflexivity|]. simpl.
  split; [repeat split; apply referencing_others|].
  split; [repeat split|].
  split; [repeat split; apply length_others|].
  split; [|split]; intros r; apply In_others.
Qed.

Lemma delete_task_cascades_witness :
  exists db',
    Db.delete_task 1%N sample.two_tasks = Some db'
    /\ Db.research_tasks db' = [sample.task_row 2%N "second" "running"]
    /\ Db.research_findings db' = [sample.finding_row 11%N 2%N None]
    /\ Db.inferences db' = [sample.inference_row 20%N 2%N 1]
    /\ Db.eval_results db' = [sample.eval_row 31%N 2%N None].
Proof.
  destruct (delete_task_cascades 1%N sample.two_tasks)
    as [db' [Hd [_ [[Ht [Hf [Hi He]]] _]]]].
  exists db'. split; [exact Hd|].
  rewrite Ht, Hf, Hi, He. repeat split.
Defined.

(* ===================================================================== *)
(** * Validation of a create-task request (C2) *)
(* ===================================================================== *)

Lemma query_ok_bounds (q : string) :
  shared_types.query_ok q = true
  <-> (1 <= String.length q <= 2000)%nat.
Proof.
  unfold shared_types.query_ok.
  rewrite andb_true_iff, !Nat.leb_le. reflexivity.
Qed.

Lemma CreateResearchRequest_errors_nil (r : api.CreateResearchRequest) :
  shared_types.CreateResearchRequest_errors r = []
  <-> shared_types.query_ok (api.query r) = true
      /\ forall m, api.max_iterations r = Some m ->
                   shared_types.max_iterations_ok m = true.
Proof.
  unfold shared_types.CreateResearchRequest_errors.
  destruct (shared_types.query_ok (api.query r)); simpl.
  - destruct (api.max_iterations r) as [m|]; simpl.
    + rewrite failing_nil. split.
      * intros H. split; [reflexivity|]. intros m' [= <-]. exact H.
      * intros [_ H]. now apply H.
    + split; [|reflexivity]. intros _. split; [reflexivity | discriminate].
  - split; [discriminate | intros [H _]; discriminate].
Qed.

Lemma validate_CreateResearchRequest_cases (r : api.CreateResearchRequest) :
  (shared_types.CreateResearchRequest_errors r = []
   /\ shared_types.validate_CreateResearchRequest r = shared_types.Valid r)
  \/ (shared_types.CreateResearchRequest_errors r <> []
      /\ shared_types.validate_CreateResearchRequest r
         = shared_types.ValidationError
             (shared_types.CreateResearchRequest_errors r)).
Proof.
  unfold shared_types.validate_CreateResearchRequest.
  destruct (shared_types.CreateResearchRequest_errors r);
    [left | right]; split; try reflexivity; discriminate.
Qed.

(** C2.  A create-task request that validation accepts is the request
    itself, its [query] has between 1 and 2000 characters and its
    [max_iterations], when present, is between 1 and 20.  A request whose
    [query] length or whose [max_iterations] is outside these ranges is
    rejected: validation yields a non-empty list of errors and no value. *)
Theorem create_research_request_validation (r : api.CreateResearchRequest) :
  (forall r',
      shared_types.validate_CreateResearchRequest r = shared_types.Valid r' ->
      r' = r
      /\ (1 <= String.length (api.query r) <= 2000)%nat
      /\ forall m, api.max_iterations r = Some m -> (1 <= m <= 20)%Q)
  /\ ((String.length (api.query r) < 1)%nat
      \/ (2000 < String.length (api.query r))%nat
      \/ (exists m, api.max_iterations r = Some m /\ (m < 1 \/ 20 < m)%Q) ->
      (exists errors,
          errors <> []
          /\ shared_types.validate_CreateResearchRequest r
             = shared_types.ValidationError errors)
      /\ forall r',
          shared_types.validate_CreateResearchRequest r
          <> shared_types.Valid r').
Proof.
  destruct (validate_CreateResearchRequest_cases r) as [[He Hv] | [He Hv]];
    rewrite Hv.
  - apply CreateResearchRequest_errors_nil in He as [Hq Hm].
    apply query_ok_bounds in Hq.
    split.
    + intros r' [= <-]. split; [reflexivity|]. split; [exact Hq|].
      intros m Hsome. apply Hm in Hsome. now apply within_bounds in Hsome.
    + intros [Hlt | [Hgt | [m [Hsome Hout]]]]; try lia.
      apply Hm in Hsome. apply within_bounds in Hsome as [H1 H20].
      destruct Hout as [Hout | Hout]; exfalso;
        [apply (Qlt_not_le _ _ Hout) | apply (Qlt_not_le _ _ Hout)];
        assumption.
  - split; [discriminate|]. intros _. split; [|discriminate].
    eexists. split; [exact He | reflexivity].
Qed.

(** The rules at their boundaries. *)
Example create_research_request_boundaries :
  shared_types.validate_CreateResearchRequest
    (sample.request (sample.chars 2000) (Some 20%Q))
  = shared_types.Valid (sample.request (sample.chars 2000) (Some 20%Q))
  /\ shared_types.validate_CreateResearchRequest
       (sample.request (sample.chars 1) (Some 1%Q))
     = shared_types.Valid (sample.request (sample.chars 1) (Some 1%Q))
  /\ shared_types.validate_CreateResearchRequest
       (sample.request (sample.chars 2001) None)
     = shared_types.ValidationError ["query"]
  /\ shared_types.validate_CreateResearchRequest
       (sample.request (sample.chars 1) (Some 0%Q))
     = shared_types.ValidationError ["max_iterations"]
  /\ shared_types.validate_CreateResearchRequest
       (sample.request (sample.chars 0) (Some 21%Q))
     = shared_types.ValidationError ["query"; "max_iterations"].
Proof. repeat split; vm_compute; reflexivity. Qed.

Lemma create_research_request_validation_witness :
  ((1 <= String.length "What is RAG?" <= 2000)%nat
   /\ forall m, Some 5%Q = Some m -> (1 <= m <= 20)%Q)
  /\ (exists errors,
         errors <> []
         /\ shared_types.validate_CreateResearchRequest
              (sample.request "What is RAG?" (Some 21%Q))
            = shared_types.ValidationError errors)
  /\ (exists errors,
         errors <> []
         /\ shared_types.validate_CreateResearchRequest
              (sample.request "" None)
            = shared_types.ValidationError errors).
Proof.
  split; [|split].
  - apply (proj1 (create_research_request_validation
                    (sample.request "What is RAG?" (Some 5%Q))) _ eq_refl).
  - apply (proj2 (create_research_request_validation
                    (sample.request "What is RAG?" (Some 21%Q)))).
    right. right. exists 21%Q. split; [reflexivity|]. right. reflexivity.
  - apply (proj2 (create_research_request_validation
                    (sample.request "" None))).
    left. simpl. lia.
Defined.

(* ===================================================================== *)
(** * The event union (C4) *)
(* ===================================================================== *)

Section Structural.
Import ts.
















End Structural.




(* ===================================================================== *)
(** * The event tag of a stream chunk (C9) *)
(* ===================================================================== *)

(** C9.  [StreamEventType] has exactly six values: the five literals of
    [EventType], in the same order, and "heartbeat".  Every [EventType]
    literal is a [StreamEventType]; a [ResearchStreamChunk] may carry the
    tag [heartbeat], which is no [EventType] and the tag of no
    [StreamEvent]. *)
Theorem stream_event_type_adds_heartbeat :
  map api.StreamEventType_literal api.StreamEventType_members
  = map events.EventType_literal events.EventType_members ++ ["heartbeat"]
  /\ List.length api.StreamEventType_members = 6%nat
  /\ NoDup (map api.StreamEventType_literal api.StreamEventType_members)
  /\ (forall t : api.StreamEventType, In t api.StreamEventType_members)
  /\ (forall s, api.StreamEventType_of_string s <> None
                <-> events.EventType_of_string s <> None \/ s = "heartbeat")
  /\ (forall t : events.EventType,
        api.StreamEventType_of_string (events.EventType_literal t) <> None)
  /\ (exists chunk : api.ResearchStreamChunk,
        api.event chunk = api.heartbeat)
  /\ events.EventType_of_string
       (api.StreamEventType_literal api.heartbeat) = None
  /\ (forall e : events.StreamEvent,
        events.EventType_literal (events.tag e)
        <> api.StreamEventType_literal api.heartbeat).
Proof.
  split; [reflexivity|]. split; [reflexivity|].
  split; [simpl; repeat constructor; simpl; intuition discriminate|].
  split; [intros []; simpl; auto 7|].
  split.
  { intros s. unfold api.StreamEventType_of_string, events.EventType_of_string.
    rewrite !literal_in_accepts. simpl. intuition. }
  split; [intros []; discriminate|].
  split.
  { exists (api.Build_ResearchStreamChunk api.heartbeat []). reflexivity. }
  split; [reflexivity|].
  intros []; discriminate.
Qed.

(* ===================================================================== *)
(** * Round trip of a task through its wire shape (C8) *)
(* ===================================================================== *)

Section RoundTrip.
Import ts.







End RoundTrip.




(* ===================================================================== *)
(** * Keys *)
(* ===================================================================== *)

Section Keys.
Import Sql Db.
Context {R : Type} (col : R -> nullable uuid).

Lemma holds_iff (c : nullable uuid) (key : uuid) :
  holds c key = true <-> c = Some key.
Proof.
  destruct c as [k|]; simpl; [|intuition discriminate].
  rewrite N.eqb_eq. split; [now intros -> | now intros [= ->]].
Qed.

Lemma key_free_iff (key : uuid) (rows : list R) :
  key_free col (Some key) rows = true <-> ~ In (Some key) (map col rows).
Proof.
  simpl. rewrite negb_true_iff, <- not_true_iff_false, existsb_exists.
  split.
  - intros H Hin. apply in_map_iff in Hin as [r [Hr Hin]].
    apply H. exists r. split; [assumption | now apply holds_iff].
  - intros H [r [Hin Hr]]. apply holds_iff in Hr.
    apply H. apply in_map_iff. now exists r.
Qed.

Lemma key_present_iff (key : uuid) (rows : list R) :
  key_present col (Some key) rows = true <-> In (Some key) (map col rows).
Proof.
  simpl. rewrite existsb_exists. split.
  - intros [r [Hin Hr]]. apply holds_iff in Hr.
    apply in_map_iff. now exists r.
  - intros Hin. apply in_map_iff in Hin as [r [Hr Hin]].
    exists r. split; [assumption | now apply holds_iff].
Qed.

Lemma key_present_app (k : nullable uuid) (rows more : list R) :
  key_present col k rows = true -> key_present col k (rows ++ more) = true.
Proof.
  destruct k as [key|]; simpl; [|reflexivity].
  rewrite existsb_app. intros ->. reflexivity.
Qed.

Lemma others_all (key : uuid) (rows : list R) :
  ~ In (Some key) (map col rows) -> others col key rows = rows.
Proof.
  unfold others. induction rows as [|r rows IH]; simpl; [reflexivity|].
  intros H. destruct (holds (col r) key) eqn:E.
  - apply holds_iff in E. exfalso. apply H. now left.
  - simpl. f_equal. apply IH. intros Hin. apply H. now right.
Qed.

Lemma others_app (key : uuid) (rows more : list R) :
  others col key (rows ++ more)
  = others col key rows ++ others col key more.
Proof. unfold others. apply filter_app. Qed.

Lemma others_comm (k1 k2 : uuid) (rows : list R) :
  others col k1 (others col k2 rows) = others col k2 (others col k1 rows).
Proof.
  unfold others. induction rows as [|r rows IH]; simpl; [reflexivity|].
  destruct (holds (col r) k1) eqn:E1, (holds (col r) k2) eqn:E2; simpl;
    rewrite ?E1, ?E2; simpl; now rewrite IH.
Qed.

Lemma NoDup_map_filter (f : R -> bool) (rows : list R) :
  NoDup (map col rows) -> NoDup (map col (filter f rows)).
Proof.
  induction rows as [|r rows IH]; simpl; [intros; constructor|].
  intros H. inversion H as [|? ? Hnin Hnd]; subst.
  destruct (f r); simpl; [|now apply IH].
  constructor; [|now apply IH].
  intros Hin. apply Hnin. apply in_map_iff in Hin as [r' [Hr' Hin]].
  apply filter_In in Hin as [Hin _]. apply in_map_iff. now exists r'.
Qed.

Lemma NoDup_map_snoc (r : R) (rows : list R) :
  NoDup (map col rows) -> ~ In (col r) (map col rows) ->
  NoDup (map col (rows ++ [r])).
Proof.
  intros Hnd Hnin. rewrite map_app. simpl.
  apply NoDup_app; [assumption | repeat constructor; intros [] |].
  intros x Hx [<- | []]. contradiction.
Qed.

End Keys.

(* ===================================================================== *)
(** * Integrity is kept by every statement *)
(* ===================================================================== *)

Section Tables.
Import Sql Db Integrity.
Context {R : Type} (accepts : R -> bool) (pk fk : R -> nullable uuid).

Lemma table_ok_nil parents : table_ok accepts pk fk parents [].
Proof. repeat split; constructor. Qed.

Lemma table_ok_snoc parents rows r :
  table_ok accepts pk fk parents rows ->
  accepts r = true ->
  ~ In (pk r) (map pk rows) ->
  key_present research_tasks.id (fk r) parents = true ->
  table_ok accepts pk fk parents (rows ++ [r]).
Proof.
  intros [Ha [Hu Hf]] Hacc Hfree Hpres. repeat split.
  - apply Forall_app. split; [assumption | now constructor].
  - now apply NoDup_map_snoc.
  - apply Forall_app. split; [assumption | now constructor].
Qed.

Lemma table_ok_parents_app parents more rows :
  table_ok accepts pk fk parents rows ->
  table_ok accepts pk fk (parents ++ more) rows.
Proof.
  intros [Ha [Hu Hf]]. repeat split; try assumption.
  eapply Forall_impl; [|exact Hf]. intros r. apply key_present_app.
Qed.

Lemma table_ok_filter parents rows (f : R -> bool) :
  table_ok accepts pk fk parents rows ->
  table_ok accepts pk fk parents (filter f rows).
Proof.
  intros [Ha [Hu Hf]]. repeat split.
  - apply Forall_forall. intros r Hin. apply filter_In in Hin as [Hin _].
    revert r Hin. now apply Forall_forall.
  - now apply NoDup_map_filter.
  - apply Forall_forall. intros r Hin. apply filter_In in Hin as [Hin _].
    revert r Hin. now apply Forall_forall.
Qed.

(** Removing some tasks keeps the table in order when the rows that
    referred to them are gone. *)
Lemma table_ok_parents_filter parents rows (g : research_tasks.row -> bool) :
  table_ok accepts pk fk parents rows ->
  (forall r p, In r rows -> In p parents ->
               fk r = research_tasks.id p -> fk r <> None -> g p = true) ->
  table_ok accepts pk fk (filter g parents) rows.
Proof.
  intros [Ha [Hu Hf]] Hkeep. repeat split; try assumption.
  apply Forall_forall. intros r Hin.
  pose proof (proj1 (Forall_forall _ _) Hf r Hin) as Hp. cbv beta in Hp.
  destruct (fk r) as [k|] eqn:E; [|reflexivity].
  apply key_present_iff in Hp. apply key_present_iff.
  apply in_map_iff in Hp as [p [Hid Hp]].
  apply in_map_iff. exists p. split; [assumption|].
  apply filter_In. split; [assumption|].
  apply (Hkeep r p Hin Hp); rewrite E; [now symmetry | discriminate].
Qed.

Lemma table_ok_others parents rows key :
  table_ok accepts pk fk parents rows ->
  table_ok accepts pk fk (others research_tasks.id key parents)
           (others fk key rows).
Proof.
  intros H. unfold others at 1.
  apply table_ok_parents_filter; [now apply table_ok_filter|].
  intros r p Hr Hp Heq Hnn. apply In_others in Hr as [_ Hr].
  rewrite negb_true_iff. rewrite <- Heq. exact Hr.
Qed.

End Tables.

Section Accepted.
Import Sql Db.

Lemma not_null_some {A} (x : nullable A) :
  not_null x = true -> exists a, x = Some a.
Proof. destruct x as [a|]; [now exists a | discriminate]. Qed.

Lemma research_tasks_accepts_id r :
  research_tasks.accepts r = true -> exists k, research_tasks.id r = Some k.
Proof.
  unfold research_tasks.accepts. intros H.
  repeat (apply andb_prop in H as [H ?]). now apply not_null_some.
Qed.

Lemma research_findings_accepts_keys r :
  research_findings.accepts r = true ->
  (exists k, research_findings.id r = Some k)
  /\ exists t, research_findings.task_id r = Some t.
Proof.
  unfold research_findings.accepts. intros H.
  repeat (apply andb_prop in H as [H ?]). split; now apply not_null_some.
Qed.

Lemma inferences_accepts_keys r :
  inferences.accepts r = true ->
  (exists k, inferences.id r = Some k)
  /\ exists t, inferences.task_id r = Some t.
Proof.
  unfold inferences.accepts. intros H.
  repeat (apply andb_prop in H as [H ?]). split; now apply not_null_some.
Qed.

Lemma eval_results_accepts_keys r :
  eval_results.accepts r = true ->
  (exists k, eval_results.id r = Some k)
  /\ exists t, eval_results.task_id r = Some t.
Proof.
  unfold eval_results.accepts. intros H.
  repeat (apply andb_prop in H as [H ?]). split; now apply not_null_some.
Qed.

(** What each INSERT checked. *)
Lemma insert_task_checked r db db' :
  insert_task r db = Some db' ->
  research_tasks.accepts r = true
  /\ ~ In (research_tasks.id r) (map research_tasks.id (research_tasks db))
  /\ db' = {| research_tasks := research_tasks db ++ [r];
              research_findings := research_findings db;
              inferences := inferences db;
              eval_results := eval_results db |}.
Proof.
  unfold insert_task. intros H.
  destruct (research_tasks.accepts r) eqn:Ha; simpl in H; [|discriminate].
  destruct (key_free _ _ _) eqn:Hf; [|discriminate].
  injection H as <-. split; [reflexivity|]. split; [|reflexivity].
  destruct (research_tasks_accepts_id r Ha) as [k Hk]. rewrite Hk in *.
  now apply key_free_iff.
Qed.

Lemma insert_finding_checked r db db' :
  insert_finding r db = Some db' ->
  research_findings.accepts r = true
  /\ ~ In (research_findings.id r)
          (map research_findings.id (research_findings db))
  /\ key_present research_tasks.id (research_findings.task_id r)
                 (research_tasks db) = true
  /\ db' = {| research_tasks := research_tasks db;
              research_findings := research_findings db ++ [r];
              inferences := inferences db;
              eval_results := eval_results db |}.
Proof.
  unfold insert_finding. intros H.
  destruct (research_findings.accepts r) eqn:Ha; simpl in H; [|discriminate].
  destruct (key_free _ _ _) eqn:Hf; simpl in H; [|discriminate].
  destruct (key_present _ _ _) eqn:Hp; [|discriminate].
  injection H as <-. split; [reflexivity|]. split; [|split; reflexivity].
  destruct (research_findings_accepts_keys r Ha) as [[k Hk] _].
  rewrite Hk in *. now apply key_free_iff.
Qed.

Lemma insert_inference_checked r db db' :
  insert_inference r db = Some db' ->
  inferences.accepts r = true
  /\ ~ In (inferences.id r) (map inferences.id (inferences db))
  /\ key_present research_tasks.id (inferences.task_id r)
                 (research_tasks db) = true
  /\ db' = {| research_tasks := research_tasks db;
              research_findings := research_findings db;
              inferences := inferences db ++ [r];
              eval_results := eval_results db |}.
Proof.
  unfold insert_inference. intros H.
  destruct (inferences.accepts r) eqn:Ha; simpl in H; [|discriminate].
  destruct (key_free _ _ _) eqn:Hf; simpl in H; [|discriminate].
  destruct (key_present _ _ _) eqn:Hp; [|discriminate].
  injection H as <-. split; [reflexivity|]. split; [|split; reflexivity].
  destruct (inferences_accepts_keys r Ha) as [[k Hk] _].
  rewrite Hk in *. now apply key_free_iff.
Qed.

Lemma insert_eval_checked r db db' :
  insert_eval r db = Some db' ->
  eval_results.accepts r = true
  /\ ~ In (eval_results.id r) (map eval_results.id (eval_results db))
  /\ key_present research_tasks.id (eval_results.task_id r)
                 (research_tasks db) = true
  /\ db' = {| research_tasks := research_tasks db;
              research_findings := research_findings db;
              inferences := inferences db;
              eval_results := eval_results db ++ [r] |}.
Proof.
  unfold insert_eval. intros H.
  destruct (eval_results.accepts r) eqn:Ha; simpl in H; [|discriminate].
  destruct (key_free _ _ _) eqn:Hf; simpl in H; [|discriminate].
  destruct (key_present _ _ _) eqn:Hp; [|discriminate].
  injection H as <-. split; [reflexivity|]. split; [|split; reflexivity].
  destruct (eval_results_accepts_keys r Ha) as [[k Hk] _].
  rewrite Hk in *. now apply key_free_iff.
Qed.

End Accepted.

Section Preservation.
Import Sql Db Integrity.

Lemma consistent_empty : consistent Db.empty.
Proof.
  repeat split; simpl; constructor.
Qed.

Lemma delete_task_others key db :
  delete_task key db
  = Some {| research_tasks := others research_tasks.id key (research_tasks db);
            research_findings :=
              others research_findings.task_id key (research_findings db);
            inferences := others inferences.task_id key (inferences db);
            eval_results :=
              others eval_results.task_id key (eval_results db) |}.
Proof. reflexivity. Qed.

Lemma delete_task_consistent key db db' :
  consistent db -> delete_task key db = Some db' -> consistent db'.
Proof.
  intros [[Ha Hu] [Hf [Hi He]]] H. rewrite delete_task_others in H.
  injection H as <-. split; [split|split; [|split]]; simpl.
  - apply Forall_forall. intros r Hin. apply In_others in Hin as [Hin _].
    revert r Hin. now apply Forall_forall.
  - now apply NoDup_map_filter.
  - now apply table_ok_others.
  - now apply table_ok_others.
  - now apply table_ok_others.
Qed.

Lemma exec_consistent s db db' :
  consistent db -> exec s db = Some db' -> consistent db'.
Proof.
  intros Hc H. destruct s as [r | r | r | r | key]; simpl in H.
  - apply insert_task_checked in H as [Ha [Hn ->]].
    destruct Hc as [[Hacc Hu] [Hf [Hi He]]].
    split; [split|split; [|split]]; simpl.
    + apply Forall_app. split; [assumption | now constructor].
    + now apply NoDup_map_snoc.
    + now apply table_ok_parents_app.
    + now apply table_ok_parents_app.
    + now apply table_ok_parents_app.
  - apply insert_finding_checked in H as [Ha [Hn [Hp ->]]].
    destruct Hc as [Ht [Hf [Hi He]]].
    split; [|split; [|split]]; simpl; try assumption.
    now apply table_ok_snoc.
  - apply insert_inference_checked in H as [Ha [Hn [Hp ->]]].
    destruct Hc as [Ht [Hf [Hi He]]].
    split; [|split; [|split]]; simpl; try assumption.
    now apply table_ok_snoc.
  - apply insert_eval_checked in H as [Ha [Hn [Hp ->]]].
    destruct Hc as [Ht [Hf [Hi He]]].
    split; [|split; [|split]]; simpl; try assumption.
    now apply table_ok_snoc.
  - now apply (delete_task_consistent key db).
Qed.

Lemma session_consistent stmts db :
  consistent db -> consistent (session stmts db).
Proof.
  revert db. induction stmts as [|s rest IH]; simpl; intros db Hc;
    [assumption|].
  destruct (exec s db) as [db'|] eqn:E; apply IH; [|assumption].
  now apply (exec_consistent s db).
Qed.

End Preservation.

(* ===================================================================== *)
(** * Looking a task up *)
(* ===================================================================== *)

Section Lookup.
Import Sql Db Stmt.

Lemma selected_uuid_eq (c : nullable uuid) (key : uuid) :
  selected (uuid_eq c (Some key)) = holds c key.
Proof. destruct c as [k|]; simpl; [destruct (N.eqb k key)|]; reflexivity. Qed.

Lemma select_task_referencing key db :
  select_task key db = referencing research_tasks.id key (research_tasks db).
Proof.
  unfold select_task, referencing. apply filter_ext.
  intros r. apply selected_uuid_eq.
Qed.

Lemma referencing_none {R} (col : R -> nullable uuid) key (rows : list R) :
  ~ In (Some key) (map col rows) -> referencing col key rows = [].
Proof.
  unfold referencing. induction rows as [|r rows IH]; simpl; [reflexivity|].
  intros H. destruct (holds (col r) key) eqn:E.
  - apply holds_iff in E. exfalso. apply H. now left.
  - apply IH. intros Hin. apply H. now right.
Qed.

Lemma referencing_one {R} (col : R -> nullable uuid) key (rows : list R) :
  NoDup (map col rows) -> In (Some key) (map col rows) ->
  exists r, referencing col key rows = [r] /\ In r rows /\ col r = Some key.
Proof.
  unfold referencing. induction rows as [|r rows IH]; simpl; [intros _ []|].
  intros Hnd Hin. inversion Hnd as [|? ? Hnin Hnd']; subst.
  destruct (holds (col r) key) eqn:E.
  - apply holds_iff in E. exists r. rewrite E in Hnin.
    pose proof (referencing_none col key rows Hnin) as Hn.
    unfold referencing in Hn. rewrite Hn. auto.
  - destruct Hin as [Hin | Hin].
    + apply holds_iff in Hin. congruence.
    + destruct (IH Hnd' Hin) as [r' [Heq [Hr' Hk]]].
      exists r'. auto.
Qed.

End Lookup.

(** X1.  Every statement keeps the integrity of the database: when the
    rows satisfy their constraints, the primary keys are unique and every
    reference is the id of a task, the same holds after an INSERT into any
    of the four tables and after the DELETE of a task. *)
Theorem every_statement_keeps_integrity
    (s : Integrity.statement) (db db' : Db.database) :
  Integrity.consistent db ->
  Integrity.exec s db = Some db' ->
  Integrity.consistent db'.
Proof. apply exec_consistent. Qed.

Lemma every_statement_keeps_integrity_witness :
  Integrity.consistent
    {| Db.research_tasks := [sample.task_row 7%N "Compare" "pending"];
       Db.research_findings := []; Db.inferences := [];
       Db.eval_results := [] |}.
Proof.
  apply (every_statement_keeps_integrity
           (Integrity.INSERT_task (sample.task_row 7%N "Compare" "pending"))
           Db.empty).
  - apply consistent_empty.
  - reflexivity.
Defined.

(** X2.  In a database that a session builds from the empty one, whatever
    its statements and whichever of them fail, every finding, inference
    and eval result refers to exactly one stored task, every stored task
    has one of the four statuses, and no two tasks share an id. *)
Theorem session_database_has_no_dangling_reference
    (stmts : list Integrity.statement) :
  let db := Integrity.session stmts Db.empty in
  (forall r, In r (Db.research_findings db) ->
     exists key t, research_findings.task_id r = Some key
                   /\ Stmt.select_task key db = [t])
  /\ (forall r, In r (Db.inferences db) ->
     exists key t, inferences.task_id r = Some key
                   /\ Stmt.select_task key db = [t])
  /\ (forall r, In r (Db.eval_results db) ->
     exists key t, eval_results.task_id r = Some key
                   /\ Stmt.select_task key db = [t])
  /\ (forall t, In t (Db.research_tasks db) ->
     exists s, research_tasks.status t = Some s
               /\ In s research.TaskStatus_literals)
  /\ NoDup (map research_tasks.id (Db.research_tasks db)).
Proof.
  cbv zeta.
  pose proof (session_consistent stmts Db.empty consistent_empty) as Hc.
  set (db := Integrity.session stmts Db.empty) in *.
  destruct Hc as [[Ha Hu] [[Hfa [_ Hf]] [[Hia [_ Hi]] [Hea [_ He]]]]].
  assert (Hsel : forall key,
             Db.key_present research_tasks.id (Some key)
                            (Db.research_tasks db) = true ->
             exists t, Stmt.select_task key db = [t]).
  { intros key Hp. apply key_present_iff in Hp.
    destruct (referencing_one research_tasks.id key _ Hu Hp) as [t [Ht _]].
    exists t. now rewrite select_task_referencing. }
  repeat split; try assumption.
  - intros r Hin.
    pose proof (proj1 (Forall_forall _ _) Hfa r Hin) as Hacc.
    pose proof (proj1 (Forall_forall _ _) Hf r Hin) as Hp. cbv beta in Hp.
    destruct (research_findings_accepts_keys r Hacc) as [_ [key Hk]].
    rewrite Hk in Hp. destruct (Hsel key Hp) as [t Ht]. now exists key, t.
  - intros r Hin.
    pose proof (proj1 (Forall_forall _ _) Hia r Hin) as Hacc.
    pose proof (proj1 (Forall_forall _ _) Hi r Hin) as Hp. cbv beta in Hp.
    destruct (inferences_accepts_keys r Hacc) as [_ [key Hk]].
    rewrite Hk in Hp. destruct (Hsel key Hp) as [t Ht]. now exists key, t.
  - intros r Hin.
    pose proof (proj1 (Forall_forall _ _) Hea r Hin) as Hacc.
    pose proof (proj1 (Forall_forall _ _) He r Hin) as Hp. cbv beta in Hp.
    destruct (eval_results_accepts_keys r Hacc) as [_ [key Hk]].
    rewrite Hk in Hp. destruct (Hsel key Hp) as [t Ht]. now exists key, t.
  - intros t Hin. apply research_tasks_accepts_status.
    revert t Hin. now apply Forall_forall.
Qed.

Lemma session_database_has_no_dangling_reference_witness :
  exists key t,
    research_findings.task_id (sample.finding_row 10%N 1%N None) = Some key
    /\ Stmt.select_task key
         (Integrity.session
            [Integrity.INSERT_finding (sample.finding_row 9%N 1%N None);
             Integrity.INSERT_task (sample.task_row 1%N "first" "pending");
             Integrity.INSERT_task (sample.task_row 1%N "again" "running");
             Integrity.INSERT_finding (sample.finding_row 10%N 1%N None)]
            Db.empty) = [t].
Proof.
  destruct (session_database_has_no_dangling_reference
              [Integrity.INSERT_finding (sample.finding_row 9%N 1%N None);
               Integrity.INSERT_task (sample.task_row 1%N "first" "pending");
               Integrity.INSERT_task (sample.task_row 1%N "again" "running");
               Integrity.INSERT_finding (sample.finding_row 10%N 1%N None)])
    as [H _].
  apply H. vm_compute. auto.
Defined.

(* ===================================================================== *)
(** * Keys refused, rows looked up, tasks deleted *)
(* ===================================================================== *)

Section KeyFacts.
Import Sql Db.

Lemma key_present_others {R} (col : R -> nullable uuid) key (rows : list R) :
  key_present col (Some key) (others col key rows) = false.
Proof.
  apply not_true_iff_false. intros H. apply key_present_iff in H.
  apply in_map_iff in H as [r [Hr Hin]]. apply In_others in Hin as [_ Hh].
  apply holds_iff in Hr. congruence.
Qed.

Lemma key_present_absent {R} (col : R -> nullable uuid) key (rows : list R) :
  ~ In (Some key) (map col rows) -> key_present col (Some key) rows = false.
Proof.
  intros H. apply not_true_iff_false. intros Hp.
  now apply key_present_iff in Hp.
Qed.

Lemma key_free_snoc {R} (col : R -> nullable uuid) key (rows : list R) r :
  col r = Some key -> key_free col (Some key) (rows ++ [r]) = false.
Proof.
  intros Hr. apply not_true_iff_false. intros H. apply key_free_iff in H.
  apply H. rewrite map_app. apply in_or_app. right. simpl. now left.
Qed.

(** In a table in order no row refers to a key that no task has. *)
Lemma table_ok_unreferenced {R} (accepts : R -> bool)
    (pk fk : R -> nullable uuid) parents rows key :
  Integrity.table_ok accepts pk fk parents rows ->
  ~ In (Some key) (map research_tasks.id parents) ->
  ~ In (Some key) (map fk rows).
Proof.
  intros [_ [_ Hf]] Hn Hin. apply in_map_iff in Hin as [r [Hr Hin]].
  pose proof (proj1 (Forall_forall _ _) Hf r Hin) as Hp. cbv beta in Hp.
  rewrite Hr in Hp. now apply key_present_iff in Hp.
Qed.

End KeyFacts.

(** X3.  A row that refers to a task that is not stored is refused by the
    INSERT into each referencing table; in particular, once a task is
    deleted, no finding, inference or eval result can be inserted for it. *)
Theorem no_row_for_a_missing_task (key : Sql.uuid) (db : Db.database) :
  (~ In (Some key) (map research_tasks.id (Db.research_tasks db)) ->
   (forall r, research_findings.task_id r = Some key ->
              Db.insert_finding r db = None)
   /\ (forall r, inferences.task_id r = Some key ->
                 Db.insert_inference r db = None)
   /\ (forall r, eval_results.task_id r = Some key ->
                 Db.insert_eval r db = None))
  /\ (forall db', Db.delete_task key db = Some db' ->
      (forall r, research_findings.task_id r = Some key ->
                 Db.insert_finding r db' = None)
      /\ (forall r, inferences.task_id r = Some key ->
                    Db.insert_inference r db' = None)
      /\ (forall r, eval_results.task_id r = Some key ->
                    Db.insert_eval r db' = None)).
Proof.
  assert (Hgen : forall d,
    Db.key_present research_tasks.id (Some key) (Db.research_tasks d) = false ->
    (forall r, research_findings.task_id r = Some key ->
               Db.insert_finding r d = None)
    /\ (forall r, inferences.task_id r = Some key ->
                  Db.insert_inference r d = None)
    /\ (forall r, eval_results.task_id r = Some key ->
                  Db.insert_eval r d = None)).
  { intros d Hp. repeat split; intros r Hr.
    - unfold Db.insert_finding. rewrite Hr, Hp.
      now rewrite andb_false_r.
    - unfold Db.insert_inference. rewrite Hr, Hp.
      now rewrite andb_false_r.
    - unfold Db.insert_eval. rewrite Hr, Hp.
      now rewrite andb_false_r. }
  split.
  - intros Hn. apply Hgen. now apply key_present_absent.
  - intros db' H. rewrite delete_task_others in H. injection H as <-.
    apply Hgen. simpl. apply key_present_others.
Qed.

Lemma no_row_for_a_missing_task_witness :
  Db.insert_finding (sample.finding_row 13%N 1%N None)
    {| Db.research_tasks := [sample.task_row 2%N "second" "running"];
       Db.research_findings := [sample.finding_row 11%N 2%N None];
       Db.inferences := [sample.inference_row 20%N 2%N 1];
       Db.eval_results := [sample.eval_row 31%N 2%N None] |} = None
  /\ Db.insert_eval (sample.eval_row 32%N 9%N None) sample.two_tasks = None.
Proof.
  split.
  - apply (proj2 (no_row_for_a_missing_task 1%N sample.two_tasks));
      reflexivity.
  - apply (proj1 (no_row_for_a_missing_task 9%N sample.two_tasks)).
    + vm_compute. intuition discriminate.
    + reflexivity.
Defined.

(** X4.  A primary key is never stored twice: after a row is inserted, an
    INSERT into the same table of any row with the same id is refused. *)
Theorem no_second_row_with_the_same_id (db db' : Db.database) :
  (forall r r', Db.insert_task r db = Some db' ->
                research_tasks.id r' = research_tasks.id r ->
                Db.insert_task r' db' = None)
  /\ (forall r r', Db.insert_finding r db = Some db' ->
                   research_findings.id r' = research_findings.id r ->
                   Db.insert_finding r' db' = None)
  /\ (forall r r', Db.insert_inference r db = Some db' ->
                   inferences.id r' = inferences.id r ->
                   Db.insert_inference r' db' = None)
  /\ (forall r r', Db.insert_eval r db = Some db' ->
                   eval_results.id r' = eval_results.id r ->
                   Db.insert_eval r' db' = None).
Proof.
  repeat split; intros r r' H Hid.
  - apply insert_task_checked in H as [Ha [_ ->]].
    destruct (research_tasks_accepts_id r Ha) as [k Hk].
    unfold Db.insert_task. simpl. rewrite Hid, Hk.
    rewrite (key_free_snoc research_tasks.id k _ r Hk).
    now rewrite andb_false_r.
  - apply insert_finding_checked in H as [Ha [_ [_ ->]]].
    destruct (research_findings_accepts_keys r Ha) as [[k Hk] _].
    unfold Db.insert_finding. simpl. rewrite Hid, Hk.
    rewrite (key_free_snoc research_findings.id k _ r Hk).
    now rewrite andb_false_r.
  - apply insert_inference_checked in H as [Ha [_ [_ ->]]].
    destruct (inferences_accepts_keys r Ha) as [[k Hk] _].
    unfold Db.insert_inference. simpl. rewrite Hid, Hk.
    rewrite (key_free_snoc inferences.id k _ r Hk).
    now rewrite andb_false_r.
  - apply insert_eval_checked in H as [Ha [_ [_ ->]]].
    destruct (eval_results_accepts_keys r Ha) as [[k Hk] _].
    unfold Db.insert_eval. simpl. rewrite Hid, Hk.
    rewrite (key_free_snoc eval_results.id k _ r Hk).
    now rewrite andb_false_r.
Qed.

Lemma no_second_row_with_the_same_id_witness :
  Db.insert_task (sample.task_row 5%N "another query" "running")
    {| Db.research_tasks := [sample.task_row 5%N "a query" "pending"];
       Db.research_findings := []; Db.inferences := [];
       Db.eval_results := [] |} = None.
Proof.
  apply (proj1 (no_second_row_with_the_same_id Db.empty _)
           (sample.task_row 5%N "a query" "pending")); reflexivity.
Defined.

(** X5.  Insert, look up, delete: a task inserted into a database in
    order was not there before, is the one row that a SELECT by its id
    returns afterwards, and deleting it again gives back the database as it
    was before the INSERT. *)
Theorem insert_select_delete_task
    (r : research_tasks.row) (key : Sql.uuid) (db db' : Db.database) :
  Integrity.consistent db ->
  Db.insert_task r db = Some db' ->
  research_tasks.id r = Some key ->
  Stmt.select_task key db = []
  /\ Stmt.select_task key db' = [r]
  /\ Db.delete_task key db' = Some db.
Proof.
  intros [[_ _] [Hf [Hi He]]] H Hk.
  apply insert_task_checked in H as [_ [Hn ->]]. rewrite Hk in Hn.
  rewrite !select_task_referencing. simpl.
  pose proof (referencing_none research_tasks.id key _ Hn) as Hnone.
  split; [exact Hnone|]. split.
  - unfold Db.referencing in *. rewrite filter_app, Hnone. simpl.
    now rewrite (proj2 (holds_iff _ _) Hk).
  - rewrite delete_task_others. simpl.
    rewrite others_app, (others_all research_tasks.id key _ Hn).
    unfold Db.others at 1. simpl. rewrite (proj2 (holds_iff _ _) Hk). simpl.
    rewrite app_nil_r.
    rewrite (others_all _ key _ (table_ok_unreferenced _ _ _ _ _ key Hf Hn)).
    rewrite (others_all _ key _ (table_ok_unreferenced _ _ _ _ _ key Hi Hn)).
    rewrite (others_all _ key _ (table_ok_unreferenced _ _ _ _ _ key He Hn)).
    now destruct db.
Qed.

Lemma insert_select_delete_task_witness :
  Db.delete_task 3%N
    {| Db.research_tasks :=
         Db.research_tasks sample.two_tasks
         ++ [sample.task_row 3%N "third" "pending"];
       Db.research_findings := Db.research_findings sample.two_tasks;
       Db.inferences := Db.inferences sample.two_tasks;
       Db.eval_results := Db.eval_results sample.two_tasks |}
  = Some sample.two_tasks.
Proof.
  apply (insert_select_delete_task
           (sample.task_row 3%N "third" "pending") 3%N sample.two_tasks).
  - unfold Integrity.consistent, Integrity.table_ok. simpl.
    repeat split;
      repeat (constructor; simpl; try reflexivity;
              try (intuition discriminate)).
  - reflexivity.
  - reflexivity.
Defined.

(** X6.  Deleting a task that is not stored succeeds and changes nothing
    in a database in order. *)
Theorem delete_of_a_missing_task_changes_nothing
    (key : Sql.uuid) (db : Db.database) :
  Integrity.consistent db ->
  ~ In (Some key) (map research_tasks.id (Db.research_tasks db)) ->
  Db.delete_task key db = Some db.
Proof.
  intros [[_ _] [Hf [Hi He]]] Hn. rewrite delete_task_others.
  rewrite (others_all research_tasks.id key _ Hn).
  rewrite (others_all _ key _ (table_ok_unreferenced _ _ _ _ _ key Hf Hn)).
  rewrite (others_all _ key _ (table_ok_unreferenced _ _ _ _ _ key Hi Hn)).
  rewrite (others_all _ key _ (table_ok_unreferenced _ _ _ _ _ key He Hn)).
  now destruct db.
Qed.

Lemma delete_of_a_missing_task_changes_nothing_witness :
  Db.delete_task 9%N sample.one_task = Some sample.one_task.
Proof.
  apply delete_of_a_missing_task_changes_nothing.
  - unfold Integrity.consistent, Integrity.table_ok. simpl.
    repeat split;
      repeat (constructor; simpl; try reflexivity;
              try (intuition discriminate)).
  - simpl. intuition discriminate.
Defined.

(** X7.  Deleting the same task twice is deleting it once, and two
    deletions give the same database in either order. *)
Theorem delete_task_is_idempotent_and_commutes
    (k1 k2 : Sql.uuid) (db : Db.database) :
  (forall db1, Db.delete_task k1 db = Some db1 ->
               Db.delete_task k1 db1 = Some db1)
  /\ (forall db1 db2,
        Db.delete_task k1 db = Some db1 ->
        Db.delete_task k2 db = Some db2 ->
        Db.delete_task k2 db1 = Db.delete_task k1 db2).
Proof.
  split.
  - intros db1 H. rewrite delete_task_others in H. injection H as <-.
    rewrite delete_task_others. simpl. now rewrite !others_others.
  - intros db1 db2 H1 H2. rewrite delete_task_others in H1, H2.
    injection H1 as <-. injection H2 as <-.
    rewrite !delete_task_others. simpl. f_equal.
    f_equal; apply others_comm.
Qed.

Lemma delete_task_is_idempotent_and_commutes_witness :
  Db.delete_task 1%N
    {| Db.research_tasks := [sample.task_row 2%N "second" "running"];
       Db.research_findings := [sample.finding_row 11%N 2%N None];
       Db.inferences := [sample.inference_row 20%N 2%N 1];
       Db.eval_results := [sample.eval_row 31%N 2%N None] |}
  = Some
    {| Db.research_tasks := [sample.task_row 2%N "second" "running"];
       Db.research_findings := [sample.finding_row 11%N 2%N None];
       Db.inferences := [sample.inference_row 20%N 2%N 1];
       Db.eval_results := [sample.eval_row 31%N 2%N None] |}.
Proof.
  apply (proj1 (delete_task_is_idempotent_and_commutes 1%N 1%N
                  sample.two_tasks)).
  reflexivity.
Defined.

(* ===================================================================== *)
(** * Column defaults, NULL and the row constraints *)
(* ===================================================================== *)

(** X8.  The defaults of [research_tasks] satisfy its constraints: an
    INSERT that names a non-null [query] and leaves [id] and [status] to
    their defaults is accepted, whatever it gives the other columns, and
    the task is stored as pending.  [query] has no default, so an INSERT
    that does not name it is refused.  Naming [status] as NULL is refused
    by NOT NULL although the CHECK [chk_task_status] itself does not
    reject a NULL status. *)
Theorem research_tasks_defaults (g : Sql.uuid) (n : Sql.timestamptz)
    (q : string) c r t e ca sa co m :
  research_tasks.accepts
    (research_tasks.insert_values g n None (Some (Some q)) c None
                                  r t e ca sa co m) = true
  /\ research_tasks.status
       (research_tasks.insert_values g n None (Some (Some q)) c None
                                     r t e ca sa co m) = Some "pending"
  /\ (forall i s,
        research_tasks.accepts
          (research_tasks.insert_values g n i None c s r t e ca sa co m)
        = false)
  /\ (forall i,
        research_tasks.accepts
          (research_tasks.insert_values g n i (Some (Some q)) c (Some None)
                                        r t e ca sa co m) = false
        /\ Sql.check
             (research_tasks.chk_task_status
                (research_tasks.insert_values g n i (Some (Some q)) c
                                              (Some None) r t e ca sa co m))
           = true).
Proof.
  split; [reflexivity|]. split; [reflexivity|]. split.
  - intros i s. unfold research_tasks.accepts. simpl.
    now rewrite andb_false_r.
  - intros i. split; [|reflexivity].
    unfold research_tasks.accepts. simpl. now rewrite !andb_false_r.
Qed.

(** X9.  In the referencing tables an INSERT that names only the NOT NULL
    columns without default satisfies the row constraints: [confidence]
    and [score] default to NULL, which the range constraints admit.  For
    [inferences] this holds when the distance is an INT that is not
    negative; a negative distance, one beyond the INT range, or an INSERT
    that does not name it, is refused. *)
Theorem referencing_tables_defaults (g task : Sql.uuid)
    (n : Sql.timestamptz) (a b : string) :
  research_findings.accepts
    (Stmt.finding_values g n None (Some (Some task)) (Some (Some a))
                         (Some (Some b)) None None None) = true
  /\ eval_results.accepts
       (Stmt.eval_values g n None (Some (Some task)) (Some (Some a))
                         None None None) = true
  /\ (forall d : Z,
        inferences.accepts
          (Stmt.inference_values g n None (Some (Some task)) (Some (Some a))
                                 None (Some (Some d)) (Some (Some b)) None)
        = true <-> 0 <= d <= 2147483647)
  /\ inferences.accepts
       (Stmt.inference_values g n None (Some (Some task)) (Some (Some a))
                              None None (Some (Some b)) None) = false.
Proof.
  split; [reflexivity|]. split; [reflexivity|]. split; [|reflexivity].
  intros d.
  cbv [inferences.accepts inferences.chk_degrees_non_negative
       Stmt.inference_values Sql.column Sql.not_null Sql.is_int4 Sql.int_ge
       Sql.lift2 inferences.id inferences.task_id inferences.claim
       inferences.degrees_of_separation inferences.reasoning
       Sql.int4_min Sql.int4_max Sql.check Sql.of_bool].
  rewrite Z.geb_leb. change (2 ^ 31) with 2147483648.
  destruct (Z.leb_spec (- 2147483648) d), (Z.leb_spec d (2147483648 - 1)),
    (Z.leb_spec 0 d); simpl; split; intros; try lia; try discriminate;
    reflexivity.
Qed.

(* ===================================================================== *)
(** * The backend rules against the schema constraints *)
(* ===================================================================== *)

(** X10.  On a finite value the backend rule for a confidence score and
    the constraints [chk_confidence_range] and [chk_score_range] agree:
    the value passes the one exactly when it passes the others, so a
    confidence that the backend accepts is never refused by the schema. *)
Theorem confidence_rule_agrees_with_schema (c : number) :
  (forall r, research_findings.confidence r = Some (Sql.Finite c) ->
     (Sql.check (research_findings.chk_confidence_range r) = true
      <-> shared_types.confidence_score_ok c = true))
  /\ (forall r, eval_results.score r = Some (Sql.Finite c) ->
     (Sql.check (eval_results.chk_score_range r) = true
      <-> shared_types.confidence_score_ok c = true)).
Proof.
  assert (H : forall x, x = Some (Sql.Finite c) ->
    (Sql.check (Sql.or3 (Sql.is_null x)
                  (Sql.and3 (Sql.float_ge x (Some (Sql.Finite 0)))
                            (Sql.float_le x (Some (Sql.Finite 1))))) = true
     <-> shared_types.confidence_score_ok c = true)).
  { intros x ->. rewrite unit_range_check.
    unfold shared_types.confidence_score_ok. rewrite within_bounds. split.
    - intros [H | [q [[= <-] H]]]; [discriminate | exact H].
    - intros H. right. now exists c. }
  split; intros r Hr.
  - unfold research_findings.chk_confidence_range. now apply H.
  - unfold eval_results.chk_score_range. now apply H.
Qed.

Lemma confidence_rule_agrees_with_schema_witness :
  Sql.check
    (research_findings.chk_confidence_range
       (sample.finding_row 10%N 1%N (Some (Sql.Finite (92 # 100))))) = true.
Proof.
  apply (proj1 (confidence_rule_agrees_with_schema (92 # 100))
           (sample.finding_row 10%N 1%N (Some (Sql.Finite (92 # 100))))
           eq_refl).
  reflexivity.
Defined.

(** X11.  Every distance that the backend rule accepts passes the CHECK
    [chk_degrees_non_negative], and the two disagree on one integer only:
    the CHECK passes and the backend rule fails exactly at 0. *)
Theorem degrees_rules_disagree_only_at_zero (d : Z) :
  (forall r, inferences.degrees_of_separation r = Some d ->
     shared_types.degrees_of_separation_ok (inject_Z d) = true ->
     Sql.check (inferences.chk_degrees_non_negative r) = true)
  /\ (forall r, inferences.degrees_of_separation r = Some d ->
     (Sql.check (inferences.chk_degrees_non_negative r) = true
      /\ shared_types.degrees_of_separation_ok (inject_Z d) = false
      <-> d = 0)).
Proof.
  split; intros r Hr; unfold inferences.chk_degrees_non_negative;
    rewrite Hr, degrees_check_bound.
  - intros H. apply degrees_of_separation_ok_bound in H. lia.
  - rewrite <- not_true_iff_false, degrees_of_separation_ok_bound. lia.
Qed.

Lemma degrees_rules_disagree_only_at_zero_witness :
  Sql.check
    (inferences.chk_degrees_non_negative (sample.inference_row 21%N 1%N 2))
  = true.
Proof.
  apply (proj1 (degrees_rules_disagree_only_at_zero 2)
           (sample.inference_row 21%N 1%N 2) eq_refl).
  reflexivity.
Defined.

(* ===================================================================== *)
(** * The enum types *)
(* ===================================================================== *)

Lemma enum_in_nth (labels : list string) (s : string) (i : nat) :
  Sql.enum_in labels s = Some i -> nth_error labels i = Some s.
Proof.
  revert i. induction labels as [|l rest IH]; simpl; [discriminate|].
  intros i. destruct (String.eqb_spec s l) as [-> | Hne].
  - intros [= <-]. reflexivity.
  - destruct (Sql.enum_in rest s) as [j|]; simpl; [|discriminate].
    intros [= <-]. simpl. now apply IH.
Qed.

Lemma nth_enum_in (labels : list string) (s : string) (i : nat) :
  NoDup labels -> nth_error labels i = Some s -> Sql.enum_in labels s = Some i.
Proof.
  revert i. induction labels as [|l rest IH]; intros i Hnd H.
  - destruct i; discriminate.
  - inversion Hnd as [|? ? Hnin Hnd']; subst. destruct i as [|i]; simpl in *.
    + injection H as ->. now rewrite String.eqb_refl.
    + destruct (String.eqb_spec s l) as [-> | Hne].
      * exfalso. apply Hnin. eapply nth_error_In. exact H.
      * now rewrite (IH i Hnd' H).
Qed.

(** X12.  Input and output of the enum types are inverse: a string is
    accepted as a value exactly when it is the label at that value's
    position, for [task_status] and for [eval_type]; the labels of each
    type are distinct, four for [task_status] and six for [eval_type]. *)
Theorem enum_input_output_round_trip (s : string) (i : nat) :
  (types_sql.task_status_in s = Some i
   <-> custom_types.enum_out types_sql.task_status i = Some s)
  /\ (custom_types.eval_type_in s = Some i
      <-> custom_types.enum_out custom_types.eval_type i = Some s)
  /\ NoDup types_sql.task_status
  /\ NoDup custom_types.eval_type
  /\ List.length types_sql.task_status = 4%nat
  /\ List.length custom_types.eval_type = 6%nat.
Proof.
  assert (H4 : NoDup types_sql.task_status).
  { unfold types_sql.task_status.
    repeat constructor; simpl; intuition discriminate. }
  assert (H6 : NoDup custom_types.eval_type).
  { unfold custom_types.eval_type.
    repeat constructor; simpl; intuition discriminate. }
  repeat split; try assumption.
  - apply enum_in_nth.
  - now apply nth_enum_in.
  - apply enum_in_nth.
  - now apply nth_enum_in.
Qed.

(** X13.  The column [eval_results.eval_type] is TEXT and not the enum
    [eval_type].  With both migrations applied, an eval result with a new
    id for a stored task is inserted whatever text its [eval_type] is, also
    one that the enum refuses, such as 'accuracy', as long as its entries
    fit the three btree indexes of the table; a row with an entry that
    does not fit is refused. *)
Theorem eval_type_column_is_not_the_enum
    (fits : list indexes.datum -> bool)
    (db : Db.database) (k task : Sql.uuid) (s : string) d c :
  let row :=
    {| eval_results.id := Some k; eval_results.task_id := Some task;
       eval_results.eval_type := Some s; eval_results.score := None;
       eval_results.details := d; eval_results.created_at := c |} in
  ~ In (Some k) (map eval_results.id (Db.eval_results db)) ->
  In (Some task) (map research_tasks.id (Db.research_tasks db)) ->
  (fits [indexes.UUID (Some task)] = true
   /\ fits [indexes.TEXT (Some s)] = true
   /\ fits [indexes.UUID (Some task); indexes.TEXT (Some s)] = true ->
   indexes.insert_eval fits row db
   = Some {| Db.research_tasks := Db.research_tasks db;
             Db.research_findings := Db.research_findings db;
             Db.inferences := Db.inferences db;
             Db.eval_results := Db.eval_results db ++ [row] |})
  /\ (fits [indexes.UUID (Some task)] = false
      \/ fits [indexes.TEXT (Some s)] = false
      \/ fits [indexes.UUID (Some task); indexes.TEXT (Some s)] = false ->
      indexes.insert_eval fits row db = None)
  /\ custom_types.eval_type_in "accuracy" = None.
Proof.
  intros row Hk Ht. subst row. split; [|split; [|reflexivity]].
  - intros [H1 [H2 H3]]. unfold indexes.insert_eval, indexes.eval_results_indexes,
      indexes.idx_eval_results_task, indexes.idx_eval_results_type,
      indexes.idx_eval_results_task_type.
    cbn [forallb eval_results.task_id eval_results.eval_type].
    rewrite H1, H2, H3. cbn [andb].
    unfold Db.insert_eval. cbn [eval_results.id eval_results.task_id].
    rewrite (proj2 (key_free_iff eval_results.id k _) Hk).
    rewrite (proj2 (key_present_iff research_tasks.id task _) Ht).
    reflexivity.
  - intros H. unfold indexes.insert_eval, indexes.eval_results_indexes,
      indexes.idx_eval_results_task, indexes.idx_eval_results_type,
      indexes.idx_eval_results_task_type.
    cbn [forallb eval_results.task_id eval_results.eval_type].
    destruct H as [H | [H | H]]; rewrite H;
      rewrite ?andb_false_r; reflexivity.
Qed.

Lemma eval_type_column_is_not_the_enum_witness :
  indexes.insert_eval indexes.short_texts
    {| eval_results.id := Some 40%N; eval_results.task_id := Some 1%N;
       eval_results.eval_type := Some "accuracy";
       eval_results.score := None;
       eval_results.details := None; eval_results.created_at := None |}
    sample.one_task
  <> None
  /\ indexes.insert_eval indexes.short_texts
       {| eval_results.id := Some 40%N; eval_results.task_id := Some 1%N;
          eval_results.eval_type := Some (sample.chars 2001);
          eval_results.score := None;
          eval_results.details := None; eval_results.created_at := None |}
       sample.one_task
     = None.
Proof.
  assert (Hk : ~ In (Some 40%N)
                    (map eval_results.id (Db.eval_results sample.one_task)))
    by (simpl; intuition).
  assert (Ht : In (Some 1%N)
                  (map research_tasks.id
                       (Db.research_tasks sample.one_task)))
    by (simpl; auto).
  split.
  - intros Hnone.
    pose proof (proj1 (eval_type_column_is_not_the_enum indexes.short_texts
                         sample.one_task 40%N 1%N "accuracy" None None Hk Ht)
                      (conj eq_refl (conj eq_refl eq_refl))) as Hsome.
    pose proof (eq_trans (eq_sym Hsome) Hnone) as Hboth. discriminate Hboth.
  - apply (proj1 (proj2 (eval_type_column_is_not_the_enum
                           indexes.short_texts sample.one_task 40%N 1%N
                           (sample.chars 2001) None None Hk Ht))).
    right. left. vm_compute. reflexivity.
Defined.

(* ===================================================================== *)
(** * Set-based DELETE *)
(* ===================================================================== *)

Section DeleteWhere.
Import Sql Db Stmt.

Lemma selected_or3 (a b : bool3) :
  selected (or3 a b) = selected a || selected b.
Proof. destruct a, b; reflexivity. Qed.

Lemma selected_uuid_in (x : nullable uuid) (ids : list (nullable uuid)) :
  selected (uuid_in x ids) = true
  <-> exists key, x = Some key /\ In (Some key) ids.
Proof.
  induction ids as [|i ids IH]; simpl.
  - split; [discriminate | intros [key [_ []]]].
  - rewrite selected_or3, orb_true_iff, IH. split.
    + intros [H | [key [Hx Hin]]].
      * destruct x as [k|], i as [k'|]; simpl in H; try discriminate.
        destruct (N.eqb_spec k k'); [subst|discriminate].
        exists k'. auto.
      * exists key. auto.
    + intros [key [-> [-> | Hin]]].
      * left. simpl. now rewrite N.eqb_refl.
      * right. now exists key.
Qed.

Lemma selected_uuid_in_false (x : nullable uuid) ids :
  (forall key, x = Some key -> ~ In (Some key) ids) ->
  selected (uuid_in x ids) = false.
Proof.
  intros H. apply not_true_iff_false. intros Hs.
  apply selected_uuid_in in Hs as [key [Hx Hin]]. now apply (H key).
Qed.

Lemma filter_all {A} (f : A -> bool) (l : list A) :
  (forall a, In a l -> f a = true) -> filter f l = l.
Proof.
  induction l as [|a l IH]; simpl; [reflexivity|]. intros H.
  rewrite (H a) by now left. f_equal. apply IH. intros b Hb. apply H.
  now right.
Qed.

Lemma filter_none {A} (f : A -> bool) (l : list A) :
  (forall a, In a l -> f a = false) -> filter f l = [].
Proof.
  induction l as [|a l IH]; simpl; [reflexivity|]. intros H.
  rewrite (H a) by now left. apply IH. intros b Hb. apply H. now right.
Qed.

Lemma filter_filter {A} (f g : A -> bool) (l : list A) :
  filter f (filter g l) = filter (fun a => g a && f a) l.
Proof.
  induction l as [|a l IH]; simpl; [reflexivity|].
  destruct (g a); simpl; [destruct (f a)|]; now rewrite IH.
Qed.

Lemma In_delete_where {R} (cond : R -> bool3) (rows : list R) (r : R) :
  In r (delete_where cond rows)
  <-> In r rows /\ selected (cond r) = false.
Proof.
  unfold delete_where. rewrite filter_In, negb_true_iff. reflexivity.
Qed.

Lemma delete_where_idem {R} (cond : R -> bool3) (rows : list R) :
  delete_where cond (delete_where cond rows) = delete_where cond rows.
Proof.
  apply filter_all. intros r Hin. apply In_delete_where in Hin as [_ H].
  now rewrite H.
Qed.

Context {R : Type} (fk : R -> nullable uuid).

Lemma delete_where_no_key (rows : list R) :
  delete_where (fun r => uuid_in (fk r) []) rows = rows.
Proof. apply filter_all. reflexivity. Qed.

Lemma delete_where_null_key (keys : list (nullable uuid)) (rows : list R) :
  delete_where (fun r => uuid_in (fk r) (None :: keys)) rows
  = delete_where (fun r => uuid_in (fk r) keys) rows.
Proof.
  apply filter_ext. intros r. simpl. rewrite selected_or3.
  now destruct (fk r).
Qed.

Lemma delete_where_key (key : uuid) (keys : list (nullable uuid))
    (rows : list R) :
  delete_where (fun r => uuid_in (fk r) (Some key :: keys)) rows
  = delete_where (fun r => uuid_in (fk r) keys) (others fk key rows).
Proof.
  unfold delete_where, others. rewrite filter_filter.
  apply filter_ext. intros r. simpl.
  rewrite selected_or3, selected_uuid_eq, negb_orb. reflexivity.
Qed.

End DeleteWhere.

Section CascadeAll.
Import Sql Db Stmt.

Lemma cascade_all_deletes keys db :
  cascade_all keys db
  = Some {| research_tasks := research_tasks db;
            research_findings :=
              delete_where (fun r => uuid_in (research_findings.task_id r) keys)
                           (research_findings db);
            inferences :=
              delete_where (fun r => uuid_in (inferences.task_id r) keys)
                           (inferences db);
            eval_results :=
              delete_where (fun r => uuid_in (eval_results.task_id r) keys)
                           (eval_results db) |}.
Proof.
  revert db. induction keys as [|[key|] keys IH]; intros db;
    cbn [cascade_all].
  - rewrite !delete_where_no_key. now destruct db.
  - unfold cascade, research_findings.task_id_on_delete,
      inferences.task_id_on_delete, eval_results.task_id_on_delete,
      on_delete.
    rewrite IH. cbn [research_tasks research_findings inferences eval_results].
    now rewrite !delete_where_key.
  - rewrite IH. now rewrite !delete_where_null_key.
Qed.

Lemma delete_seed_tasks db :
  delete_tasks_where seed.is_seed db = Some (seed.cleared db).
Proof.
  unfold delete_tasks_where. rewrite cascade_all_deletes. reflexivity.
Qed.

Lemma clear_cleared db : script seed.clear db = Some (seed.cleared db).
Proof.
  unfold seed.clear. cbn [script].
  rewrite delete_seed_tasks. f_equal.
  unfold seed.cleared, seed.of_seed_task, select_ids,
    delete_evals_where, delete_inferences_where, delete_findings_where.
  cbn [research_tasks research_findings inferences eval_results].
  now rewrite !delete_where_idem.
Qed.

End CascadeAll.

(* ===================================================================== *)
(** * The seed script: clearing *)
(* ===================================================================== *)

Section Clearing.
Import Sql Db Stmt.

Lemma cleared_tasks_not_seed db t :
  In t (research_tasks (seed.cleared db)) ->
  In t (research_tasks db) /\ selected (seed.is_seed t) = false.
Proof. intros H. now apply In_delete_where in H. Qed.

Lemma cleared_no_seed_id db :
  select_ids seed.is_seed (seed.cleared db) = [].
Proof.
  unfold select_ids. rewrite filter_none; [reflexivity|].
  intros t Hin. now apply cleared_tasks_not_seed in Hin.
Qed.

Lemma seed_id_selected db t key :
  In t (research_tasks db) -> selected (seed.is_seed t) = true ->
  research_tasks.id t = Some key ->
  In (Some key) (select_ids seed.is_seed db).
Proof.
  intros Hin Hs Hk. unfold select_ids. apply in_map_iff. exists t.
  split; [assumption|]. apply filter_In. now split.
Qed.

Lemma cleared_table_ok {R} (accepts : R -> bool)
    (pk fk : R -> nullable uuid) db (rows : list R) :
  Integrity.table_ok accepts pk fk (research_tasks db) rows ->
  Integrity.table_ok accepts pk fk (research_tasks (seed.cleared db))
    (delete_where (fun r => seed.of_seed_task db (fk r)) rows).
Proof.
  intros H. apply table_ok_parents_filter; [now apply table_ok_filter|].
  intros r p Hr Hp Heq Hnn. apply In_delete_where in Hr as [_ Hr].
  rewrite negb_true_iff. apply not_true_iff_false. intros Hs.
  destruct (fk r) as [key|] eqn:E; [|congruence].
  assert (Hsel : selected (seed.of_seed_task db (Some key)) = true).
  { apply selected_uuid_in. exists key. split; [reflexivity|].
    now apply (seed_id_selected db p). }
  congruence.
Qed.

Lemma cleared_consistent db :
  Integrity.consistent db -> Integrity.consistent (seed.cleared db).
Proof.
  intros [[Ha Hu] [Hf [Hi He]]].
  split; [split|split; [|split]].
  - apply Forall_forall. intros t Hin.
    apply cleared_tasks_not_seed in Hin as [Hin _].
    revert t Hin. now apply Forall_forall.
  - now apply NoDup_map_filter.
  - now apply (cleared_table_ok _ _ research_findings.task_id).
  - now apply (cleared_table_ok _ _ inferences.task_id).
  - now apply (cleared_table_ok _ _ eval_results.task_id).
Qed.

End Clearing.

(** X14.  The first four statements of the seed script do what the last
    of them does alone: the three DELETEs on the referencing tables remove
    only rows that the DELETE of the seed tasks would cascade to.  On every
    database they succeed and leave the database without its seed tasks
    and without the rows that refer to them. *)
Theorem seed_clear_is_the_cascade (db : Db.database) :
  Stmt.script seed.clear db = Stmt.delete_tasks_where seed.is_seed db
  /\ Stmt.script seed.clear db = Some (seed.cleared db).
Proof.
  rewrite clear_cleared, delete_seed_tasks. split; reflexivity.
Qed.

(** X15.  Clearing removes the seed tasks and their rows and nothing
    else.  On every database the four statements succeed; afterwards no
    task is a seed task, a task is stored exactly when it was stored and
    is not a seed task, a finding, inference or eval result is stored
    exactly when it was stored and does not refer to a seed task, and a
    database in order stays in order. *)
Theorem seed_clear_keeps_the_other_rows (db : Db.database) :
  exists db',
    Stmt.script seed.clear db = Some db'
    /\ Stmt.select_ids seed.is_seed db' = []
    /\ (forall t, In t (Db.research_tasks db')
                  <-> In t (Db.research_tasks db)
                      /\ Stmt.selected (seed.is_seed t) = false)
    /\ (forall r, In r (Db.research_findings db')
                  <-> In r (Db.research_findings db)
                      /\ ~ In (research_findings.task_id r)
                              (filter (fun k => Sql.not_null k)
                                      (Stmt.select_ids seed.is_seed db)))
    /\ (forall r, In r (Db.inferences db')
                  <-> In r (Db.inferences db)
                      /\ ~ In (inferences.task_id r)
                              (filter (fun k => Sql.not_null k)
                                      (Stmt.select_ids seed.is_seed db)))
    /\ (forall r, In r (Db.eval_results db')
                  <-> In r (Db.eval_results db)
                      /\ ~ In (eval_results.task_id r)
                              (filter (fun k => Sql.not_null k)
                                      (Stmt.select_ids seed.is_seed db)))
    /\ (Integrity.consistent db -> Integrity.consistent db').
Proof.
  assert (Hrow : forall (x : Sql.nullable Sql.uuid) ids,
             Stmt.selected (Stmt.uuid_in x ids) = false
             <-> ~ In x (filter (fun k => Sql.not_null k) ids)).
  { intros x ids. rewrite <- not_true_iff_false, selected_uuid_in.
    rewrite filter_In. split.
    - intros H [Hin Hnn]. apply H. destruct x as [key|]; [|discriminate].
      now exists key.
    - intros H [key [-> Hin]]. apply H. now split. }
  exists (seed.cleared db).
  split; [apply clear_cleared|].
  split; [apply cleared_no_seed_id|].
  split; [intros t; apply In_delete_where|].
  split; [|split; [|split]].
  - intros r. unfold seed.cleared; simpl. rewrite In_delete_where.
    unfold seed.of_seed_task. now rewrite Hrow.
  - intros r. unfold seed.cleared; simpl. rewrite In_delete_where.
    unfold seed.of_seed_task. now rewrite Hrow.
  - intros r. unfold seed.cleared; simpl. rewrite In_delete_where.
    unfold seed.of_seed_task. now rewrite Hrow.
  - apply cleared_consistent.
Qed.

Lemma seed_clear_keeps_the_other_rows_witness :
  exists db',
    Stmt.script seed.clear seed.mixed = Some db'
    /\ Integrity.consistent db'
    /\ In (sample.task_row 7%N "Compare RSC and SSR" "running")
          (Db.research_tasks db')
    /\ ~ In (seed.completed_task (seed.example_env 100%N))
            (Db.research_tasks db')
    /\ In (sample.eval_row 52%N 7%N None) (Db.eval_results db').
Proof.
  destruct (seed_clear_keeps_the_other_rows seed.mixed)
    as [db' [Hs [_ [Ht [_ [_ [He Hc]]]]]]].
  exists db'. split; [exact Hs|]. split.
  { apply Hc. unfold Integrity.consistent, Integrity.table_ok.
    repeat split;
      try (apply Forall_forall; intros r Hr; vm_compute in Hr;
           repeat (destruct Hr as [<- | Hr]; [vm_compute; reflexivity|]);
           now destruct Hr);
      try (vm_compute;
           repeat (constructor; [simpl; intuition discriminate|]);
           constructor). }
  split.
  { apply Ht. split; [vm_compute; auto | reflexivity]. }
  split.
  { intros Hin. apply Ht in Hin as [_ Hin]. vm_compute in Hin.
    discriminate. }
  apply He. split; [vm_compute; auto 10|].
  vm_compute. intuition discriminate.
Defined.

(* ===================================================================== *)
(** * The seed script: populating *)
(* ===================================================================== *)

Section Populating.
Import Sql Db Stmt.

Lemma script_app (a b : list (database -> option database)) db :
  script (a ++ b) db
  = match script a db with
    | Some db' => script b db'
    | None => None
    end.
Proof.
  revert db. induction a as [|s a IH]; intros db; simpl; [reflexivity|].
  destruct (s db); [apply IH | reflexivity].
Qed.

Lemma insert_task_succeeds r key db :
  research_tasks.accepts r = true ->
  research_tasks.id r = Some key ->
  ~ In (Some key) (map research_tasks.id (research_tasks db)) ->
  insert_task r db
  = Some {| research_tasks := research_tasks db ++ [r];
            research_findings := research_findings db;
            inferences := inferences db;
            eval_results := eval_results db |}.
Proof.
  intros Ha Hk Hn. unfold insert_task. rewrite Ha, Hk.
  now rewrite (proj2 (key_free_iff research_tasks.id key _) Hn).
Qed.

Lemma insert_finding_succeeds r key task db :
  research_findings.accepts r = true ->
  research_findings.id r = Some key ->
  research_findings.task_id r = Some task ->
  ~ In (Some key) (map research_findings.id (research_findings db)) ->
  In (Some task) (map research_tasks.id (research_tasks db)) ->
  insert_finding r db
  = Some {| research_tasks := research_tasks db;
            research_findings := research_findings db ++ [r];
            inferences := inferences db;
            eval_results := eval_results db |}.
Proof.
  intros Ha Hk Ht Hn Hp. unfold insert_finding. rewrite Ha, Hk, Ht.
  rewrite (proj2 (key_free_iff research_findings.id key _) Hn).
  now rewrite (proj2 (key_present_iff research_tasks.id task _) Hp).
Qed.

Lemma insert_inference_succeeds r key task db :
  inferences.accepts r = true ->
  inferences.id r = Some key ->
  inferences.task_id r = Some task ->
  ~ In (Some key) (map inferences.id (inferences db)) ->
  In (Some task) (map research_tasks.id (research_tasks db)) ->
  insert_inference r db
  = Some {| research_tasks := research_tasks db;
            research_findings := research_findings db;
            inferences := inferences db ++ [r];
            eval_results := eval_results db |}.
Proof.
  intros Ha Hk Ht Hn Hp. unfold insert_inference. rewrite Ha, Hk, Ht.
  rewrite (proj2 (key_free_iff inferences.id key _) Hn).
  now rewrite (proj2 (key_present_iff research_tasks.id task _) Hp).
Qed.

Lemma insert_eval_succeeds r key task db :
  eval_results.accepts r = true ->
  eval_results.id r = Some key ->
  eval_results.task_id r = Some task ->
  ~ In (Some key) (map eval_results.id (eval_results db)) ->
  In (Some task) (map research_tasks.id (research_tasks db)) ->
  insert_eval r db
  = Some {| research_tasks := research_tasks db;
            research_findings := research_findings db;
            inferences := inferences db;
            eval_results := eval_results db ++ [r] |}.
Proof.
  intros Ha Hk Ht Hn Hp. unfold insert_eval. rewrite Ha, Hk, Ht.
  rewrite (proj2 (key_free_iff eval_results.id key _) Hn).
  now rewrite (proj2 (key_present_iff research_tasks.id task _) Hp).
Qed.

Lemma not_in_snoc {A} (x y : A) (l : list A) :
  ~ In x l -> y <> x -> ~ In x (l ++ [y]).
Proof.
  intros Hn Hne Hin. apply in_app_or in Hin as [Hin | [Hin | []]]; auto.
Qed.

(** The seven INSERT statements on a database that has none of the four
    task ids and none of the six generated ids. *)
Lemma populate_succeeds e c :
  (forall k, In k seed.task_ids ->
             ~ In k (map research_tasks.id (research_tasks c))) ->
  seed.fresh e c ->
  script (seed.populate e) c
  = Some {| research_tasks :=
              research_tasks c
              ++ [seed.completed_task e; seed.pending_task e;
                  seed.running_task e; seed.failed_task e];
            research_findings := research_findings c ++ seed.findings e;
            inferences := inferences c ++ seed.inferred e;
            eval_results := eval_results c ++ seed.evals e |}.
Proof.
  intros Hids [[Hf01 [Hf0 Hf1]] [[Hi23 [Hi2 Hi3]] [He45 [He4 He5]]]].
  assert (H1 := Hids (Some 1%N) ltac:(simpl; auto)).
  assert (H2 := Hids (Some 2%N) ltac:(simpl; auto)).
  assert (H3 := Hids (Some 3%N) ltac:(simpl; auto)).
  assert (H4 := Hids (Some 4%N) ltac:(simpl; auto)).
  unfold seed.populate. cbn [script insert_all].
  rewrite (insert_task_succeeds (seed.completed_task e) 1%N c eq_refl eq_refl H1).
  rewrite (insert_task_succeeds (seed.pending_task e) 2%N _ eq_refl eq_refl).
  2:{ cbn [research_tasks]. rewrite map_app. apply not_in_snoc;
      [assumption | discriminate]. }
  cbn [research_tasks research_findings inferences eval_results].
  rewrite (insert_task_succeeds (seed.running_task e) 3%N _ eq_refl eq_refl).
  2:{ cbn [research_tasks]. rewrite !map_app.
      repeat (apply not_in_snoc; [|discriminate]). assumption. }
  cbn [research_tasks research_findings inferences eval_results].
  rewrite (insert_task_succeeds (seed.failed_task e) 4%N _ eq_refl eq_refl).
  2:{ cbn [research_tasks]. rewrite !map_app.
      repeat (apply not_in_snoc; [|discriminate]). assumption. }
  cbn [research_tasks research_findings inferences eval_results].
  assert (Htask : In (Some 1%N)
            (map research_tasks.id
               ((((research_tasks c ++ [seed.completed_task e])
                  ++ [seed.pending_task e]) ++ [seed.running_task e])
                ++ [seed.failed_task e]))).
  { rewrite !map_app, !in_app_iff. left. left. left. right. now left. }
  unfold seed.findings, seed.inferred, seed.evals. cbn [insert_all].
  erewrite insert_finding_succeeds;
    [ | reflexivity | reflexivity | reflexivity | exact Hf0 | exact Htask ].
  cbn [research_tasks research_findings inferences eval_results].
  erewrite insert_finding_succeeds;
    [ | reflexivity | reflexivity | reflexivity | | exact Htask ].
  2:{ cbn [research_findings]. rewrite map_app. apply not_in_snoc;
      [assumption | simpl; congruence]. }
  cbn [research_tasks research_findings inferences eval_results].
  erewrite insert_inference_succeeds;
    [ | reflexivity | reflexivity | reflexivity | exact Hi2 | exact Htask ].
  cbn [research_tasks research_findings inferences eval_results].
  erewrite insert_inference_succeeds;
    [ | reflexivity | reflexivity | reflexivity | | exact Htask ].
  2:{ cbn [inferences]. rewrite map_app. apply not_in_snoc;
      [assumption | simpl; congruence]. }
  cbn [research_tasks research_findings inferences eval_results].
  erewrite insert_eval_succeeds;
    [ | reflexivity | reflexivity | reflexivity | exact He4 | exact Htask ].
  cbn [research_tasks research_findings inferences eval_results].
  erewrite insert_eval_succeeds;
    [ | reflexivity | reflexivity | reflexivity | | exact Htask ].
  2:{ cbn [eval_results]. rewrite map_app. apply not_in_snoc;
      [assumption | simpl; congruence]. }
  cbn [research_tasks research_findings inferences eval_results].
  rewrite <- !app_assoc. reflexivity.
Qed.

End Populating.

(* ===================================================================== *)
(** * The seed script: running it, and running it again *)
(* ===================================================================== *)

Section Running.
Import Sql Db Stmt.

Lemma In_map_filter {A B} (f : A -> B) (g : A -> bool) (l : list A) x :
  In x (map f (filter g l)) -> In x (map f l).
Proof.
  intros H. apply in_map_iff in H as [a [Ha Hin]].
  apply filter_In in Hin as [Hin _]. apply in_map_iff. now exists a.
Qed.

Lemma ready_cleared_ids db :
  seed.ready db ->
  forall k, In k seed.task_ids ->
            ~ In k (map research_tasks.id (research_tasks (seed.cleared db))).
Proof.
  intros [_ Hseed] k Hk Hin. apply in_map_iff in Hin as [t [Ht Hin]].
  apply cleared_tasks_not_seed in Hin as [Hin Hs].
  rewrite <- Ht in Hk. rewrite (Hseed t Hin Hk) in Hs. discriminate.
Qed.

Lemma fresh_cleared e db : seed.fresh e db -> seed.fresh e (seed.cleared db).
Proof.
  unfold seed.fresh, seed.cleared, delete_where.
  cbn [research_findings inferences eval_results].
  intros [[H01 [H0 H1]] [[H23 [H2 H3]] [H45 [H4 H5]]]].
  repeat split; try assumption; intros Hin;
    apply In_map_filter in Hin; contradiction.
Qed.

Lemma run_seeded e db :
  seed.ready db -> seed.fresh e (seed.cleared db) ->
  seed.run e db = Some (seed.seeded e db).
Proof.
  intros Hr Hf. unfold seed.run. rewrite script_app, clear_cleared.
  now rewrite (populate_succeeds e _ (ready_cleared_ids db Hr) Hf).
Qed.

(** The seed tasks of a seeded database are the four of the script. *)
Lemma seeded_seed_ids e db :
  select_ids seed.is_seed (seed.seeded e db) = seed.task_ids.
Proof.
  unfold select_ids, seed.seeded. cbn [research_tasks].
  rewrite filter_app, map_app.
  fold (select_ids seed.is_seed (seed.cleared db)).
  rewrite cleared_no_seed_id. reflexivity.
Qed.

(** No row of a cleared table refers to one of the four ids. *)
Lemma cleared_rows_unrelated {R} (accepts : R -> bool)
    (pk fk : R -> nullable uuid) db (rows : list R) :
  seed.ready db ->
  Integrity.table_ok accepts pk fk (research_tasks (seed.cleared db)) rows ->
  forall r, In r rows -> selected (uuid_in (fk r) seed.task_ids) = false.
Proof.
  intros Hr [_ [_ Hf]] r Hin. apply selected_uuid_in_false.
  intros key Hk Hids.
  pose proof (proj1 (Forall_forall _ _) Hf r Hin) as Hp. cbv beta in Hp.
  rewrite Hk in Hp. apply key_present_iff in Hp.
  now apply (ready_cleared_ids db Hr (Some key)).
Qed.

Lemma count_where_app {R} (cond : R -> bool3) (a b : list R) :
  count_where cond (a ++ b) = (count_where cond a + count_where cond b)%nat.
Proof. unfold count_where. now rewrite filter_app, length_app. Qed.

Lemma count_where_none {R} (cond : R -> bool3) (rows : list R) :
  (forall r, In r rows -> selected (cond r) = false) ->
  count_where cond rows = 0%nat.
Proof. intros H. unfold count_where. now rewrite filter_none. Qed.

Lemma verify_seeded e db :
  seed.ready db ->
  seed.verify (seed.seeded e db)
  = [("research_tasks", 4%nat); ("research_findings", 2%nat);
     ("inferences", 2%nat); ("eval_results", 2%nat)].
Proof.
  intros Hr. pose proof Hr as [Hc _].
  apply cleared_consistent in Hc. destruct Hc as [_ [Hf [Hi He]]].
  unfold seed.verify, seed.of_seed_task. rewrite seeded_seed_ids.
  unfold seed.seeded.
  cbn [research_tasks research_findings inferences eval_results].
  rewrite !count_where_app.
  rewrite (count_where_none seed.is_seed).
  2:{ intros t Hin. now apply cleared_tasks_not_seed in Hin. }
  rewrite (count_where_none _ (research_findings (seed.cleared db))).
  2:{ intros r Hin. exact (cleared_rows_unrelated _ _ _ db _ Hr Hf r Hin). }
  rewrite (count_where_none _ (inferences (seed.cleared db))).
  2:{ intros r Hin. exact (cleared_rows_unrelated _ _ _ db _ Hr Hi r Hin). }
  rewrite (count_where_none _ (eval_results (seed.cleared db))).
  2:{ intros r Hin. exact (cleared_rows_unrelated _ _ _ db _ Hr He r Hin). }
  reflexivity.
Qed.

Lemma insert_all_consistent {R}
    (insert : R -> database -> option database) :
  (forall r db db', Integrity.consistent db -> insert r db = Some db' ->
                    Integrity.consistent db') ->
  forall rows db db',
    Integrity.consistent db -> insert_all insert rows db = Some db' ->
    Integrity.consistent db'.
Proof.
  intros Hins rows. induction rows as [|r rows IH]; simpl; intros db db' Hc H.
  - now injection H as <-.
  - destruct (insert r db) as [d|] eqn:E; [|discriminate].
    apply (IH d); [|assumption]. now apply (Hins r db).
Qed.

Lemma populate_consistent e db db' :
  Integrity.consistent db -> script (seed.populate e) db = Some db' ->
  Integrity.consistent db'.
Proof.
  assert (Ht := fun r => exec_consistent (Integrity.INSERT_task r)).
  assert (Hf := fun r => exec_consistent (Integrity.INSERT_finding r)).
  assert (Hi := fun r => exec_consistent (Integrity.INSERT_inference r)).
  assert (He := fun r => exec_consistent (Integrity.INSERT_eval r)).
  unfold seed.populate. cbn [script]. intros Hc H.
  repeat match type of H with
  | match insert_all ?ins ?rows ?d with _ => _ end = _ =>
      let E := fresh "E" in
      destruct (insert_all ins rows d) eqn:E; [|discriminate];
      first [ apply (insert_all_consistent _ Ht) in E
            | apply (insert_all_consistent _ Hf) in E
            | apply (insert_all_consistent _ Hi) in E
            | apply (insert_all_consistent _ He) in E ];
      [|assumption]
  end.
  now injection H as <-.
Qed.

Lemma ready_seeded e db :
  seed.ready db -> seed.fresh e (seed.cleared db) ->
  seed.ready (seed.seeded e db).
Proof.
  intros Hr Hf. split.
  - pose proof Hr as [Hc _]. apply cleared_consistent in Hc.
    apply (populate_consistent e (seed.cleared db)); [assumption|].
    now rewrite (populate_succeeds e _ (ready_cleared_ids db Hr) Hf).
  - unfold seed.seeded. cbn [research_tasks]. intros t Hin Hid.
    apply in_app_or in Hin as [Hin | Hin].
    + exfalso. apply (ready_cleared_ids db Hr _ Hid).
      apply in_map_iff. now exists t.
    + simpl in Hin.
      repeat (destruct Hin as [<- | Hin]; [reflexivity|]). destruct Hin.
Qed.

Lemma cleared_seeded e db :
  seed.ready db -> seed.cleared (seed.seeded e db) = seed.cleared db.
Proof.
  intros Hr. pose proof Hr as [Hc _].
  apply cleared_consistent in Hc. destruct Hc as [_ [Hf [Hi He]]].
  unfold seed.cleared at 1, seed.of_seed_task. rewrite seeded_seed_ids.
  unfold seed.seeded, delete_where.
  cbn [research_tasks research_findings inferences eval_results].
  rewrite !filter_app.
  rewrite (filter_all _ (research_tasks (seed.cleared db))).
  2:{ intros t Hin. apply cleared_tasks_not_seed in Hin as [_ ->].
      reflexivity. }
  rewrite (filter_all _ (research_findings (seed.cleared db))).
  2:{ intros r Hin.
      now rewrite (cleared_rows_unrelated _ _ _ db _ Hr Hf r Hin). }
  rewrite (filter_all _ (inferences (seed.cleared db))).
  2:{ intros r Hin.
      now rewrite (cleared_rows_unrelated _ _ _ db _ Hr Hi r Hin). }
  rewrite (filter_all _ (eval_results (seed.cleared db))).
  2:{ intros r Hin.
      now rewrite (cleared_rows_unrelated _ _ _ db _ Hr He r Hin). }
  unfold seed.findings, seed.inferred, seed.evals.
  cbn [filter seed.is_seed seed.completed_task seed.pending_task
       seed.running_task seed.failed_task research_tasks.insert_values
       research_tasks.metadata seed.val column seed.seed_metadata get
       String.eqb Ascii.eqb Bool.eqb of_bool selected negb
       finding_values inference_values eval_values
       research_findings.task_id inferences.task_id eval_results.task_id
       uuid_in uuid_eq lift2 N.eqb Pos.eqb or3 seed.task_ids].
  rewrite !app_nil_r. now destruct (seed.cleared db).
Qed.

Lemma ready_empty : seed.ready Db.empty.
Proof. split; [apply consistent_empty | intros t []]. Qed.

End Running.

(** X16.  On a database in order whose tasks with the ids 1 to 4, if any,
    are seed tasks, and with generated ids that are new, every statement
    of the seed script succeeds; the result is the cleared database with
    the four tasks, two findings, two inferences and two eval results of
    the script after it, the verification query counts 4, 2, 2 and 2, and
    the script can run on the result again. *)
Theorem seed_script_succeeds (e : seed.env) (db : Db.database) :
  seed.ready db ->
  seed.fresh e db ->
  seed.run e db = Some (seed.seeded e db)
  /\ seed.verify (seed.seeded e db)
     = [("research_tasks", 4%nat); ("research_findings", 2%nat);
        ("inferences", 2%nat); ("eval_results", 2%nat)]
  /\ seed.ready (seed.seeded e db).
Proof.
  intros Hr Hf. apply fresh_cleared in Hf.
  split; [now apply run_seeded|].
  split; [now apply verify_seeded | now apply ready_seeded].
Qed.

Lemma seed_script_succeeds_witness :
  seed.run (seed.example_env 100%N) Db.empty
  = Some (seed.seeded (seed.example_env 100%N) Db.empty).
Proof.
  assert (Hf : seed.fresh (seed.example_env 100%N) Db.empty).
  { unfold seed.fresh. simpl. repeat split; try discriminate; intros []. }
  exact (proj1 (seed_script_succeeds (seed.example_env 100%N) Db.empty
                  ready_empty Hf)).
Defined.

(** X17.  The seed script can be run again: a second run on the result of
    a first one succeeds and gives the database that a single run (with
    the second environment) gives from the original database; what the
    first run inserted is cleared and inserted anew, and the other rows
    are those of the original database. *)
Theorem seed_script_can_be_run_again (e e' : seed.env) (db : Db.database) :
  seed.ready db ->
  seed.fresh e db ->
  seed.fresh e' db ->
  Stmt.script [seed.run e; seed.run e'] db = seed.run e' db
  /\ seed.run e' db = Some (seed.seeded e' db)
  /\ seed.cleared (seed.seeded e db) = seed.cleared db.
Proof.
  intros Hr Hf Hf'. apply fresh_cleared in Hf, Hf'.
  assert (Hr1 := ready_seeded e db Hr Hf).
  assert (Hf1 : seed.fresh e' (seed.cleared (seed.seeded e db)))
    by now rewrite cleared_seeded.
  assert (Hs : seed.seeded e' (seed.seeded e db) = seed.seeded e' db).
  { change (seed.seeded e' (seed.seeded e db))
      with {| Db.research_tasks :=
                Db.research_tasks (seed.cleared (seed.seeded e db))
                ++ [seed.completed_task e'; seed.pending_task e';
                    seed.running_task e'; seed.failed_task e'];
              Db.research_findings :=
                Db.research_findings (seed.cleared (seed.seeded e db))
                ++ seed.findings e';
              Db.inferences :=
                Db.inferences (seed.cleared (seed.seeded e db))
                ++ seed.inferred e';
              Db.eval_results :=
                Db.eval_results (seed.cleared (seed.seeded e db))
                ++ seed.evals e' |}.
    now rewrite (cleared_seeded e db Hr). }
  cbn [Stmt.script]. rewrite (run_seeded e db Hr Hf).
  rewrite (run_seeded e' _ Hr1 Hf1), Hs, (run_seeded e' db Hr Hf').
  repeat split. now apply cleared_seeded.
Qed.

Lemma seed_script_can_be_run_again_witness :
  Stmt.script [seed.run (seed.example_env 100%N);
               seed.run (seed.example_env 100%N)] Db.empty
  = seed.run (seed.example_env 100%N) Db.empty.
Proof.
  assert (Hf : seed.fresh (seed.example_env 100%N) Db.empty).
  { unfold seed.fresh. simpl. repeat split; try discriminate; intros []. }
  exact (proj1 (seed_script_can_be_run_again
                  (seed.example_env 100%N) (seed.example_env 100%N)
                  Db.empty ready_empty Hf Hf)).
Defined.

Section Collision.
Import Sql Db Stmt.

Lemma insert_task_keeps_ids r db db' k :
  insert_task r db = Some db' ->
  In k (map research_tasks.id (research_tasks db)) ->
  research_tasks.id r <> k
  /\ In k (map research_tasks.id (research_tasks db')).
Proof.
  intros H Hin. apply insert_task_checked in H as [_ [Hn ->]]. split.
  - intros Heq. apply Hn. now rewrite Heq.
  - cbn [research_tasks]. rewrite map_app. apply in_or_app. now left.
Qed.

Lemma populate_collides e c k :
  In k seed.task_ids ->
  In k (map research_tasks.id (research_tasks c)) ->
  script (seed.populate e) c = None.
Proof.
  intros Hk Hin. unfold seed.populate. cbn [script insert_all].
  destruct (insert_task (seed.completed_task e) c) as [c1|] eqn:E1;
    [|reflexivity].
  destruct (insert_task_keeps_ids _ _ _ k E1 Hin) as [N1 Hin1].
  destruct (insert_task (seed.pending_task e) c1) as [c2|] eqn:E2;
    [|reflexivity].
  destruct (insert_task_keeps_ids _ _ _ k E2 Hin1) as [N2 Hin2].
  destruct (insert_task (seed.running_task e) c2) as [c3|] eqn:E3;
    [|reflexivity].
  destruct (insert_task_keeps_ids _ _ _ k E3 Hin2) as [N3 Hin3].
  destruct (insert_task (seed.failed_task e) c3) as [c4|] eqn:E4;
    [|reflexivity].
  destruct (insert_task_keeps_ids _ _ _ k E4 Hin3) as [N4 _].
  exfalso. simpl in Hk.
  destruct Hk as [<- | [<- | [<- | [<- | []]]]];
    [apply N1 | apply N2 | apply N3 | apply N4]; reflexivity.
Qed.

End Collision.

(** X18.  The seed script does not overwrite a task that is not seed data:
    when the database stores, under one of the ids 1 to 4, a task whose
    metadata does not mark it as seed data, the task survives the clearing
    and an INSERT of the script fails on its primary key. *)
Theorem seed_script_fails_on_a_foreign_task
    (e : seed.env) (db : Db.database) (t : research_tasks.row) :
  In t (Db.research_tasks db) ->
  Stmt.selected (seed.is_seed t) = false ->
  In (research_tasks.id t) seed.task_ids ->
  In t (Db.research_tasks (seed.cleared db))
  /\ seed.run e db = None.
Proof.
  intros Hin Hs Hid.
  assert (Hc : In t (Db.research_tasks (seed.cleared db))).
  { apply In_delete_where. now split. }
  split; [exact Hc|].
  unfold seed.run. rewrite script_app, clear_cleared.
  apply (populate_collides e _ (research_tasks.id t) Hid).
  apply in_map_iff. now exists t.
Qed.

Lemma seed_script_fails_on_a_foreign_task_witness :
  seed.run (seed.example_env 100%N) sample.two_tasks = None.
Proof.
  apply (proj2 (seed_script_fails_on_a_foreign_task
                  (seed.example_env 100%N) sample.two_tasks
                  (sample.task_row 2%N "second" "running")
                  ltac:(simpl; auto) eq_refl ltac:(simpl; auto))).
Defined.

(* ===================================================================== *)
(** * The answer of the create-task handler *)
(* ===================================================================== *)

(** X23.  What the handler [create_research] answers is a
    [CreateResearchResponse] and not a [ResearchTask]: its object has the
    members [task_id], [status] and [created_at], is read back as the
    response with status pending and the id of the new task, and cannot be
    read as a [ResearchTask], the type that the frontend function of the
    README gives it, because it has no member [id]. *)
Theorem create_research_response_is_no_ResearchTask
    (uuid4 now : string) (request : api.CreateResearchRequest) :
  let response := shared_types.create_research uuid4 now request in
  JsonApi.to_CreateResearchResponse
    (JsonApi.of_CreateResearchResponse response)
  = Some {| api.task_id := uuid4; api.status := research.pending;
            api.created_at := now |}
  /\ Json.to_ResearchTask (JsonApi.of_CreateResearchResponse response) = None
  /\ (exists m, JsonApi.of_CreateResearchResponse response = JObject m
                /\ keys m = ["task_id"; "status"; "created_at"]
                /\ get "id" m = None).
Proof.
  cbv zeta. split; [reflexivity|]. split; [reflexivity|].
  eexists. split; [reflexivity|]. split; reflexivity.
Qed.

(* ===================================================================== *)
(** * The seed tasks and the lifecycle *)
(* ===================================================================== *)

(** X24.  Whatever the clock of the session, the timestamps of the four
    seed tasks agree with their status: the pending task has neither
    [started_at] nor [completed_at]; the running task started after it was
    created and has no [completed_at]; the completed and the failed task
    were created, started and completed in this order; only the completed
    task has a result and only the failed task has an error. *)
Theorem seed_tasks_follow_the_lifecycle (e : seed.env) :
  (research_tasks.started_at (seed.pending_task e) = None
   /\ research_tasks.completed_at (seed.pending_task e) = None)
  /\ (exists c s,
        research_tasks.created_at (seed.running_task e) = Some c
        /\ research_tasks.started_at (seed.running_task e) = Some s
        /\ c <= s
        /\ research_tasks.completed_at (seed.running_task e) = None)
  /\ (forall t, t = seed.completed_task e \/ t = seed.failed_task e ->
        exists c s d,
          research_tasks.created_at t = Some c
          /\ research_tasks.started_at t = Some s
          /\ research_tasks.completed_at t = Some d
          /\ c <= s <= d)
  /\ (forall t, In t [seed.completed_task e; seed.pending_task e;
                      seed.running_task e; seed.failed_task e] ->
        (research_tasks.result t <> None
         <-> research_tasks.status t = Some "completed")
        /\ (research_tasks.error t <> None
            <-> research_tasks.status t = Some "failed")).
Proof.
  split; [split; reflexivity|]. split; [|split].
  - eexists. eexists. repeat split; try reflexivity.
    unfold seed.minutes, seed.seconds. lia.
  - intros t [-> | ->]; eexists; eexists; eexists;
      (split; [reflexivity|]); (split; [reflexivity|]);
      (split; [reflexivity|]);
      unfold seed.hours, seed.minutes, seed.seconds; lia.
  - intros t Hin. simpl in Hin.
    destruct Hin as [<- | [<- | [<- | [<- | []]]]]; simpl;
      repeat split; intros H; try discriminate; try reflexivity;
      try (exfalso; now apply H).
Qed.

Lemma seed_tasks_follow_the_lifecycle_witness :
  exists c s d,
    research_tasks.created_at (seed.failed_task (seed.example_env 100%N))
    = Some c
    /\ research_tasks.started_at (seed.failed_task (seed.example_env 100%N))
       = Some s
    /\ research_tasks.completed_at
         (seed.failed_task (seed.example_env 100%N)) = Some d
    /\ c <= s <= d.
Proof.
  destruct (seed_tasks_follow_the_lifecycle (seed.example_env 100%N))
    as [_ [_ [H _]]].
  apply H. now right.
Defined.

(* ===================================================================== *)
(** * The status of a stored task (C7) *)
(* ===================================================================== *)

Section Status.
Import Sql Db Stmt.

Lemma with_status_id s r :
  research_tasks.id (with_status s r) = research_tasks.id r.
Proof. reflexivity. Qed.

Lemma accepts_with_status r (b : research.TaskStatus) :
  research_tasks.accepts r = true ->
  research_tasks.accepts
    (with_status (Some (research.TaskStatus_literal b)) r) = true.
Proof.
  unfold research_tasks.accepts. intros H.
  apply andb_prop in H as [H _]. apply andb_prop in H as [H _].
  apply andb_prop in H as [Hid Hq].
  cbn [research_tasks.id research_tasks.query research_tasks.status
       with_status].
  rewrite Hid, Hq. now destruct b.
Qed.

Lemma refuses_with_status r (s : nullable string) :
  (forall x, s = Some x -> ~ In x research.TaskStatus_literals) ->
  research_tasks.accepts (with_status s r) = false.
Proof.
  intros H. unfold research_tasks.accepts.
  destruct s as [x|]; cbn [research_tasks.status with_status not_null].
  - apply andb_false_intro2. apply not_true_iff_false.
    unfold research_tasks.chk_task_status.
    cbn [research_tasks.status with_status].
    rewrite check_text_in. now apply H.
  - now rewrite andb_false_r.
Qed.

Lemma forallb_refuted {A} (f : A -> bool) (l : list A) (a : A) :
  In a l -> f a = false -> forallb f l = false.
Proof.
  intros Hin Hf. apply not_true_iff_false. rewrite forallb_forall.
  intros H. specialize (H a Hin). congruence.
Qed.

Lemma key_present_map {R} (col : R -> nullable uuid) (g : R -> R) k rows :
  (forall r, col (g r) = col r) ->
  key_present col k (map g rows) = key_present col k rows.
Proof.
  intros Hg. destruct k as [key|]; [|reflexivity]. simpl.
  induction rows as [|r rows IH]; simpl; [reflexivity|].
  now rewrite Hg, IH.
Qed.

(** The rows after [UPDATE ... SET status = s WHERE id = key]. *)
Local Abbreviation updated key s :=
  (set_status_where (fun r => uuid_eq (research_tasks.id r) (Some key)) s).

Lemma updated_ids key s rows :
  map research_tasks.id (updated key s rows) = map research_tasks.id rows.
Proof.
  unfold set_status_where. rewrite map_map. apply map_ext.
  intros r. now destruct (selected _).
Qed.

Lemma updated_select key s rows :
  referencing research_tasks.id key (updated key s rows)
  = map (with_status s) (referencing research_tasks.id key rows).
Proof.
  unfold referencing, set_status_where.
  induction rows as [|r rows IH]; simpl; [reflexivity|].
  rewrite selected_uuid_eq.
  destruct (holds (research_tasks.id r) key) eqn:E; simpl.
  - rewrite E. simpl. now rewrite IH.
  - now rewrite E, IH.
Qed.

Lemma updated_select_other key key' s rows :
  key' <> key ->
  referencing research_tasks.id key' (updated key s rows)
  = referencing research_tasks.id key' rows.
Proof.
  intros Hne. unfold referencing, set_status_where.
  induction rows as [|r rows IH]; simpl; [reflexivity|].
  rewrite selected_uuid_eq.
  destruct (holds (research_tasks.id r) key) eqn:E; simpl.
  - apply holds_iff in E. rewrite E at 1 2. simpl.
    destruct (N.eqb_spec key key') as [Heq|_]; [congruence|]. exact IH.
  - now rewrite IH.
Qed.

Lemma update_status_succeeds key (b : research.TaskStatus) db :
  Forall (fun r => research_tasks.accepts r = true) (research_tasks db) ->
  update_status key (Some (research.TaskStatus_literal b)) db
  = Some {| research_tasks :=
              updated key (Some (research.TaskStatus_literal b))
                      (research_tasks db);
            research_findings := research_findings db;
            inferences := inferences db;
            eval_results := eval_results db |}.
Proof.
  intros Hacc. unfold update_status, update_status_where.
  replace (forallb _ (research_tasks db)) with true; [reflexivity|].
  symmetry. apply forallb_forall. intros r Hr.
  rewrite Forall_forall in Hacc.
  rewrite (accepts_with_status r b (Hacc r Hr)). apply orb_true_r.
Qed.

Lemma updated_table_ok {R} (accepts : R -> bool) (pk fk : R -> nullable uuid)
    key s parents (rows : list R) :
  Integrity.table_ok accepts pk fk parents rows ->
  Integrity.table_ok accepts pk fk (updated key s parents) rows.
Proof.
  intros [Ha [Hn Hp]]. split; [exact Ha|]. split; [exact Hn|].
  rewrite Forall_forall in *. intros r Hr. unfold set_status_where.
  rewrite key_present_map; [now apply Hp|].
  intros t. now destruct (selected _).
Qed.

Lemma updated_consistent key (b : research.TaskStatus) db :
  Integrity.consistent db ->
  Integrity.consistent
    {| research_tasks :=
         updated key (Some (research.TaskStatus_literal b))
                 (research_tasks db);
       research_findings := research_findings db;
       inferences := inferences db;
       eval_results := eval_results db |}.
Proof.
  intros [[Ha Hn] [Hf [Hi He]]]. unfold Integrity.consistent.
  cbn [research_tasks research_findings inferences eval_results].
  split; [split|split; [|split]].
  - unfold set_status_where. rewrite Forall_forall in *. intros r Hr.
    apply in_map_iff in Hr as [r0 [<- Hr0]].
    destruct (selected _); [apply accepts_with_status|]; now apply Ha.
  - now rewrite updated_ids.
  - now apply updated_table_ok.
  - now apply updated_table_ok.
  - now apply updated_table_ok.
Qed.

End Status.

(** C7, as stated, fails on both counts.  The first statement of the seed
    script creates a task with status completed, not pending.  And the
    schema constrains the value of [status], not its history: setting the
    status of that completed task back to pending is accepted, though
    pending is an earlier stage than completed and completed to pending is
    none of the three transitions. *)
Lemma task_created_completed_and_set_back_to_pending :
  exists db1 db2,
    Db.insert_task (seed.completed_task (seed.example_env 100%N)) Db.empty
    = Some db1
    /\ map research_tasks.status (Stmt.select_task 1%N db1)
       = [Some "completed"]
    /\ Stmt.update_status 1%N (Some "pending") db1 = Some db2
    /\ map research_tasks.status (Stmt.select_task 1%N db2)
       = [Some "pending"]
    /\ shared_types.earlier research.pending research.completed
    /\ ~ shared_types.transition research.completed research.pending.
Proof.
  eexists. eexists.
  split; [reflexivity|]. split; [reflexivity|].
  split; [reflexivity|]. split; [reflexivity|].
  split; [unfold shared_types.earlier; simpl; lia|].
  intros H. inversion H.
Qed.

(** C7, amended.  A task is created with status pending by the handler,
    and by an INSERT that does not name the status; an INSERT that names
    one of the four statuses is accepted with that status.  The status of
    a stored task can be set to each of the four statuses whatever its
    status is, also to an earlier one: the UPDATE succeeds, the task has
    the new status and is otherwise as it was, the other rows are
    untouched and the database stays in order.  Setting it to NULL or to
    another text is refused, so after an UPDATE that succeeds the task
    has one of the four statuses.  Nothing in the schema orders the
    changes. *)
Theorem task_status_is_pending_by_default_and_unordered :
  (forall uuid4 now request,
      research.status (shared_types.new_task uuid4 now request)
      = research.pending
      /\ api.status (shared_types.create_research uuid4 now request)
         = research.pending)
  /\ (forall g n i q c r t e ca sa co m,
      research_tasks.status
        (research_tasks.insert_values g n i q c None r t e ca sa co m)
      = Some (research.TaskStatus_literal research.pending))
  /\ (forall g n i q c (a : research.TaskStatus) r t e ca sa co m db,
      let row :=
        research_tasks.insert_values g n (Some (Some i)) (Some (Some q)) c
          (Some (Some (research.TaskStatus_literal a))) r t e ca sa co m in
      ~ In (Some i) (map research_tasks.id (Db.research_tasks db)) ->
      exists db',
        Db.insert_task row db = Some db'
        /\ map research_tasks.status (Stmt.select_task i db')
           = [Some (research.TaskStatus_literal a)])
  /\ (forall db key t (b : research.TaskStatus),
      Integrity.consistent db ->
      In t (Db.research_tasks db) ->
      research_tasks.id t = Some key ->
      exists db',
        Stmt.update_status key (Some (research.TaskStatus_literal b)) db
        = Some db'
        /\ Stmt.select_task key db'
           = [Stmt.with_status (Some (research.TaskStatus_literal b)) t]
        /\ (forall key', key' <> key ->
              Stmt.select_task key' db' = Stmt.select_task key' db)
        /\ Db.research_findings db' = Db.research_findings db
        /\ Db.inferences db' = Db.inferences db
        /\ Db.eval_results db' = Db.eval_results db
        /\ Integrity.consistent db')
  /\ (forall db key t s,
      In t (Db.research_tasks db) ->
      research_tasks.id t = Some key ->
      (forall x, s = Some x -> ~ In x research.TaskStatus_literals) ->
      Stmt.update_status key s db = None)
  /\ (forall db key s db' t,
      Stmt.update_status key s db = Some db' ->
      In t (Stmt.select_task key db') ->
      exists x, s = Some x /\ research_tasks.status t = Some x
                /\ In x research.TaskStatus_literals).
Proof.
  split; [intros; split; reflexivity|].
  split; [reflexivity|].
  split.
  { intros g n i q c a r t e ca sa co m db row Hnew.
    assert (Hacc : research_tasks.accepts row = true) by now destruct a.
    rewrite (insert_task_succeeds row i db Hacc eq_refl Hnew).
    eexists. split; [reflexivity|].
    rewrite select_task_referencing. cbn [Db.research_tasks].
    unfold Db.referencing. rewrite filter_app.
    fold (Db.referencing research_tasks.id i (Db.research_tasks db)).
    rewrite (referencing_none _ _ _ Hnew). simpl.
    now rewrite N.eqb_refl. }
  split.
  { intros db key t b Hc Hin Hid.
    pose proof Hc as [[Ha Hn] _].
    rewrite (update_status_succeeds key b db Ha).
    eexists. split; [reflexivity|].
    split.
    { rewrite select_task_referencing. cbn [Db.research_tasks].
      rewrite updated_select.
      destruct (referencing_one research_tasks.id key _ Hn)
        as [r [Hr [Hrin Hrid]]].
      { apply in_map_iff. now exists t. }
      rewrite Hr. simpl. do 2 f_equal.
      assert (Ht : In t (Db.referencing research_tasks.id key
                                        (Db.research_tasks db))).
      { apply filter_In. split; [exact Hin|]. now apply holds_iff. }
      rewrite Hr in Ht. destruct Ht as [-> | []]. reflexivity. }
    split.
    { intros key' Hne. rewrite !select_task_referencing.
      cbn [Db.research_tasks]. now apply updated_select_other. }
    split; [reflexivity|]. split; [reflexivity|]. split; [reflexivity|].
    now apply updated_consistent. }
  split.
  { intros db key t s Hin Hid Hs.
    unfold Stmt.update_status, Stmt.update_status_where.
    rewrite (forallb_refuted _ _ t Hin); [reflexivity|].
    rewrite Hid. simpl. rewrite N.eqb_refl. simpl.
    now apply refuses_with_status. }
  intros db key s db' t Hu Hin.
  unfold Stmt.update_status, Stmt.update_status_where in Hu.
  destruct (forallb _ (Db.research_tasks db)) eqn:Hall; [|discriminate].
  injection Hu as <-.
  rewrite select_task_referencing in Hin. cbn [Db.research_tasks] in Hin.
  rewrite updated_select in Hin.
  apply in_map_iff in Hin as [r [<- Hr]].
  apply filter_In in Hr as [Hr Hsel].
  rewrite forallb_forall in Hall. specialize (Hall r Hr).
  rewrite selected_uuid_eq, Hsel in Hall. simpl in Hall.
  apply research_tasks_accepts_status in Hall as [x [Hx Hlit]].
  exists x. cbn [research_tasks.status Stmt.with_status] in Hx |- *.
  auto.
Qed.

Lemma task_status_is_pending_by_default_and_unordered_witness :
  exists db',
    Stmt.update_status 1%N (Some "pending") sample.two_tasks = Some db'
    /\ Stmt.select_task 1%N db'
       = [sample.task_row 1%N "first" "pending"]
    /\ Stmt.select_task 2%N db'
       = [sample.task_row 2%N "second" "running"].
Proof.
  destruct task_status_is_pending_by_default_and_unordered
    as [_ [_ [_ [H _]]]].
  destruct (H sample.two_tasks 1%N (sample.task_row 1%N "first" "completed")
              research.pending)
    as [db' [Hu [Hs [Ho _]]]].
  - unfold Integrity.consistent, Integrity.table_ok. simpl.
    repeat split;
      repeat (constructor; simpl; try reflexivity;
              try (intuition discriminate)).
  - simpl. auto.
  - reflexivity.
  - exists db'. split; [exact Hu|]. split; [exact Hs|].
    rewrite (Ho 2%N); [reflexivity | discriminate].
Defined.
